(** * zapping-node: the time-expression resolver

    A shallow embedding of [TimeParser] (the time utilities of the client) and the
    properties its specification states about it.

    The TypeScript class is a set of static methods that read the system clock
    ([new Date()], [Date.now()]), call the chrono-node grammar and format dates
    through the host's [Intl] implementation.  The embedding keeps that shape:

    - a JavaScript string is its sequence of UTF-16 code units;
    - a [Date] is its time value, milliseconds since the epoch; calendar
      arithmetic follows the abstract operations of ECMA-262 (section 21.4.1);
    - the clock and the calls made to chrono are threaded through a small
      state monad over a [World];
    - the host (time zone, [Intl] formatting, the chrono grammar) is a record
      of functions given as a section variable. *)

From Stdlib Require Import ZArith List String Ascii Bool Lia.
From Stdlib Require Import DecimalString.
From Stdlib Require Import Sorted Permutation.
Import ListNotations.

Local Open Scope Z_scope.
Local Open Scope list_scope.

(* ================================================================= *)
(** ** JavaScript strings *)

Module JS.

(** A string value: a finite sequence of 16-bit code units. *)
Definition jsstring := list N.

(** An ASCII literal of the source, as code units. *)
Definition js (s : string) : jsstring :=
  map N_of_ascii (list_ascii_of_string s).

(** ECMA-262 12.2 and 12.3: the code points [String.prototype.trim] strips,
    WhiteSpace (TAB, VT, FF, SP, NBSP, ZWNBSP and category Zs) together with
    LineTerminator (LF, CR, LS, PS). *)
Definition isWhiteSpace (c : N) : bool :=
  ((9 <=? c) && (c <=? 13) ||
   (c =? 32) || (c =? 160) || (c =? 5760) ||
   (8192 <=? c) && (c <=? 8202) ||
   (c =? 8232) || (c =? 8233) || (c =? 8239) || (c =? 8287) ||
   (c =? 12288) || (c =? 65279))%N.

(** [String.prototype.trimStart]. *)
Fixpoint trimStart (s : jsstring) : jsstring :=
  match s with
  | [] => []
  | c :: r => if isWhiteSpace c then trimStart r else s
  end.

(** [String.prototype.trimEnd]: a code unit is kept when something after it
    is kept or when it is not white space itself. *)
Fixpoint trimEnd (s : jsstring) : jsstring :=
  match s with
  | [] => []
  | c :: r =>
      match trimEnd r with
      | [] => if isWhiteSpace c then [] else [c]
      | r' => c :: r'
      end
  end.

(** [String.prototype.trim] (TrimString with "start+end"). *)
Definition trim (s : jsstring) : jsstring := trimEnd (trimStart s).

(** ToBoolean on a string: only the empty string is falsy. *)
Definition truthy (s : jsstring) : bool :=
  match s with [] => false | _ :: _ => true end.

(** Number::toString for an integral Number below 10^21 in magnitude: the
    decimal digits, with a leading minus sign for a negative value. *)
Definition NumberToString (n : Z) : jsstring :=
  js (NilZero.string_of_int (Z.to_int n)).

End JS.
Import JS.

(* ================================================================= *)
(** ** Time values and the calendar of ECMA-262 *)

Module ES.

Definition msPerDay : Z := 86400000.
Definition msPerHour : Z := 3600000.
Definition msPerMinute : Z := 60000.

Definition Day (t : Z) : Z := t / msPerDay.
Definition TimeWithinDay (t : Z) : Z := t mod msPerDay.

Definition DaysInYear (y : Z) : Z :=
  if (y mod 4 =? 0) && (negb (y mod 100 =? 0) || (y mod 400 =? 0))
  then 366 else 365.

Definition DayFromYear (y : Z) : Z :=
  365 * (y - 1970) + (y - 1969) / 4 - (y - 1901) / 100 + (y - 1601) / 400.

(** The largest year whose first day is not after [t]: an estimate from the
    mean length of a Gregorian year, corrected by at most one. *)
Definition YearFromTime (t : Z) : Z :=
  let d := Day t in
  let y := 1970 + (400 * d) / 146097 in
  if DayFromYear (y + 1) <=? d then y + 1
  else if DayFromYear y <=? d then y
  else y - 1.

Definition InLeapYear (t : Z) : Z :=
  if DaysInYear (YearFromTime t) =? 366 then 1 else 0.

Definition DayWithinYear (t : Z) : Z := Day t - DayFromYear (YearFromTime t).

(** Number of days of the year before month [m] (0 for January). *)
Definition daysBeforeMonth (leap m : Z) : Z :=
  match m with
  | 0 => 0
  | 1 => 31
  | 2 => 59 + leap
  | 3 => 90 + leap
  | 4 => 120 + leap
  | 5 => 151 + leap
  | 6 => 181 + leap
  | 7 => 212 + leap
  | 8 => 243 + leap
  | 9 => 273 + leap
  | 10 => 304 + leap
  | _ => 334 + leap
  end.

Definition MonthFromTime (t : Z) : Z :=
  let d := DayWithinYear t in
  let leap := InLeapYear t in
  if d <? 31 then 0
  else if d <? 59 + leap then 1
  else if d <? 90 + leap then 2
  else if d <? 120 + leap then 3
  else if d <? 151 + leap then 4
  else if d <? 181 + leap then 5
  else if d <? 212 + leap then 6
  else if d <? 243 + leap then 7
  else if d <? 273 + leap then 8
  else if d <? 304 + leap then 9
  else if d <? 334 + leap then 10
  else 11.

Definition DateFromTime (t : Z) : Z :=
  DayWithinYear t - daysBeforeMonth (InLeapYear t) (MonthFromTime t) + 1.

(** 0 is Sunday; 1 January 1970 was a Thursday. *)
Definition WeekDay (t : Z) : Z := (Day t + 4) mod 7.

Definition HourFromTime (t : Z) : Z := (t / msPerHour) mod 24.
Definition MinFromTime (t : Z) : Z := (t / msPerMinute) mod 60.

(** [MakeDay]: the day number of the first of the month, plus [date - 1]. *)
Definition MakeDay (year month date : Z) : Z :=
  let ym := year + month / 12 in
  let mn := month mod 12 in
  let leap := if DaysInYear ym =? 366 then 1 else 0 in
  DayFromYear ym + daysBeforeMonth leap mn + date - 1.

Definition MakeDate (day time : Z) : Z := day * msPerDay + time.

(** [TimeClip]: outside 100,000,000 days around the epoch a time value is
    NaN, here [None]. *)
Definition TimeClip (t : Z) : option Z :=
  if Z.abs t <=? 8640000000000000 then Some t else None.

Section LocalTimeZone.

(** [LocalTZA t isUTC]: the offset of the local time zone in milliseconds,
    at the UTC instant [t] when [isUTC] holds and at the local time [t]
    otherwise. *)
Variable LocalTZA : Z -> bool -> Z.

Definition LocalTime (t : Z) : Z := t + LocalTZA t true.
Definition UTC (t : Z) : Z := t - LocalTZA t false.

(** [Date.prototype.getDate] on a date of time value [tv]. *)
Definition getDate (tv : Z) : Z := DateFromTime (LocalTime tv).

(** [Date.prototype.setDate]: the new time value of the date, [None] for
    an invalid date. *)
Definition setDate (tv : Z) (dt : Z) : option Z :=
  let t := LocalTime tv in
  let newDate :=
    MakeDate (MakeDay (YearFromTime t) (MonthFromTime t) dt)
             (TimeWithinDay t) in
  TimeClip (UTC newDate).

End LocalTimeZone.

End ES.

(* ================================================================= *)
(** ** The collaborators: chrono-node, the host, the world *)

Module chrono.

(** A [ParsedResult] of chrono-node: where the match starts, the matched
    text, and the time value of [result.date()].  chrono builds that date
    from a complete set of calendar components (the ones the text leaves out
    are taken from the reference instant), so it is a finite time value and
    never an invalid date. *)
Record ParsedResult := mkParsedResult {
  index : Z;
  text : jsstring;
  date : Z
}.

End chrono.

(** What the program takes from the platform it runs on. *)
Record Host := mkHost {
  (** the local time zone *)
  LocalTZA : Z -> bool -> Z;
  (** [toLocaleTimeString('en-US', {hour: 'numeric', minute: '2-digit',
      hour12: true})] of the date with the given time value *)
  toLocaleTimeString : Z -> jsstring;
  (** [toLocaleDateString('en-US', {weekday: 'short', month: 'short',
      day: 'numeric', hour: 'numeric', minute: '2-digit', hour12: true})] *)
  toLocaleDateString : Z -> jsstring;
  (** the grammar of [chrono.parse(text)], as a function of the text and of
      the reference instant, which chrono reads from the clock *)
  grammar : jsstring -> Z -> list chrono.ParsedResult
}.

(** The state the program runs in: the readings the system clock will give,
    in order, and the texts handed to [chrono.parse] so far, latest first. *)
Record World := mkWorld {
  clock : nat -> Z;
  chronoCalls : list jsstring
}.

(** Computations that read the clock or call chrono. *)
Definition M (A : Type) : Type := World -> A * World.

Definition ret {A : Type} (a : A) : M A := fun w => (a, w).

Definition bind {A B : Type} (m : M A) (k : A -> M B) : M B :=
  fun w => let (a, w') := m w in k a w'.

Notation "x <- m ;; k" := (bind m (fun x => k))
  (at level 61, m at next level, right associativity).

(** The value and the final world of a run. *)
Definition valueOf {A : Type} (m : M A) (w : World) : A := fst (m w).
Definition worldAfter {A : Type} (m : M A) (w : World) : World := snd (m w).

(** [new Date()] and [Date.now()]: the next reading of the clock. *)
Definition newDate : M Z :=
  fun w => (clock w 0%nat,
            {| clock := fun n => clock w (S n); chronoCalls := chronoCalls w |}).

(** A world whose clock stands still at [now]. *)
Definition frozen (now : Z) : World :=
  {| clock := fun _ => now; chronoCalls := [] |}.

(* ================================================================= *)
(** ** TimeParser

    [Math.floor(x / k)] is written [x / k], the floor division of [Z].  The
    quotients taken here are of integers below 2^53 in magnitude (a time
    value is at most 8.64e15, a difference of two stays below 2^53 as long as
    the clock is within ten thousand years of the epoch) by 1000, 60000, 60
    and 24, for which the floor of the double-precision quotient is the
    floor of the exact one. *)

Record ParsedTime := mkParsedTime {
  timestamp : Z;
  description : jsstring;
  date : Z
}.

Section TimeParser.

Variable host : Host.

(** [chrono.parse(text)]: chrono takes its reference instant from the
    clock; the call is recorded. *)
Definition chrono_parse (text : jsstring) : M (list chrono.ParsedResult) :=
  ref <- newDate ;;
  fun w => (grammar host text ref,
            {| clock := clock w; chronoCalls := text :: chronoCalls w |}).

Definition formatTime (date : Z) : jsstring := toLocaleTimeString host date.

Definition formatDate (date : Z) : jsstring := toLocaleDateString host date.

Definition generateDescription (originalExpression : jsstring) (parsedDate : Z)
  : M jsstring :=
  now <- newDate ;;
  let diffMs := now - parsedDate in
  let diffMinutes := diffMs / (1000 * 60) in
  let diffHours := diffMinutes / 60 in
  let diffDays := diffHours / 24 in
  if diffMinutes <? 60 then
    ret (NumberToString diffMinutes ++ js " minute"
           ++ (if negb (diffMinutes =? 1) then js "s" else []) ++ js " ago")
  else if diffHours <? 24 then
    ret (NumberToString diffHours ++ js " hour"
           ++ (if negb (diffHours =? 1) then js "s" else []) ++ js " ago")
  else if diffDays <? 7 then
    if diffDays =? 1 then
      ret (js "yesterday at " ++ formatTime parsedDate)
    else
      ret (NumberToString diffDays ++ js " day"
             ++ (if negb (diffDays =? 1) then js "s" else [])
             ++ js " ago at " ++ formatTime parsedDate)
  else
    ret (originalExpression ++ js " (" ++ formatDate parsedDate ++ js ")").

Definition parseTimeExpression (expression : jsstring) : M (option ParsedTime) :=
  let trimmed := trim expression in
  if negb (truthy trimmed) then ret None
  else
    results <- chrono_parse trimmed ;;
    match results with
    | [] => ret None
    | result :: _ =>
        (* results[0] is an object here, so [!result] is false *)
        let parsedDate := chrono.date result in
        now <- newDate ;;
        if parsedDate >? now then
          (* dayBefore.setDate(dayBefore.getDate() - 1); an invalid date
             compares false with everything *)
          match ES.setDate (LocalTZA host) parsedDate
                  (ES.getDate (LocalTZA host) parsedDate - 1) with
          | Some dayBefore =>
              if dayBefore <=? now then
                let timestamp := dayBefore / 1000 in
                description <- generateDescription expression dayBefore ;;
                ret (Some {| timestamp := timestamp;
                             description := description;
                             date := dayBefore |})
              else ret None
          | None => ret None
          end
        else
          let timestamp := parsedDate / 1000 in
          description <- generateDescription expression parsedDate ;;
          ret (Some {| timestamp := timestamp;
                       description := description;
                       date := parsedDate |})
    end.

Definition validateTimeExpression (expression : jsstring) : M bool :=
  r <- parseTimeExpression expression ;;
  ret (match r with Some _ => true | None => false end).

Definition getCurrentTimestamp : M Z :=
  now <- newDate ;;
  ret (now / 1000).

End TimeParser.

Definition getExamples : list jsstring :=
  [ js "2 hours ago";
    js "30 minutes ago";
    js "1 day ago";
    js "yesterday at 3pm";
    js "yesterday 15:30";
    js "last friday at 9am";
    js "tuesday at noon";
    js "3 days ago at 2pm";
    js "this morning at 8am";
    js "last night at 10pm" ].

(* ================================================================= *)
(** ** Sample hosts

    Concrete platforms to run the resolver on: two time zones, the en-US
    output of [Intl] for the options [formatTime] and [formatDate] pass
    (with a plain space before AM/PM), and a table-driven stand-in for the
    chrono grammar. *)

Module Sample.

(** UTC all year. *)
Definition utc : Z -> bool -> Z := fun _ _ => 0.

(** US Pacific time around 2024: UTC-8, and UTC-7 between 2024-03-10T10:00Z
    and 2024-11-03T09:00Z.  A local time that the spring transition skips or
    that the autumn transition repeats is read with the offset in force
    before the transition. *)
Definition pacific2024 : Z -> bool -> Z := fun t isUTC =>
  let pst := -8 * ES.msPerHour in
  let pdt := -7 * ES.msPerHour in
  let spring := 1710064800000 in
  let autumn := 1730624400000 in
  if isUTC then
    if t <? spring then pst else if t <? autumn then pdt else pst
  else
    if t <? spring + pdt then pst else if t <? autumn + pdt then pdt else pst.

Definition pad2 (n : Z) : jsstring :=
  if n <? 10 then js "0" ++ NumberToString n else NumberToString n.

Definition shortWeekday (d : Z) : jsstring :=
  js (match d with
      | 0 => "Sun" | 1 => "Mon" | 2 => "Tue" | 3 => "Wed"
      | 4 => "Thu" | 5 => "Fri" | _ => "Sat"
      end).

Definition shortMonth (m : Z) : jsstring :=
  js (match m with
      | 0 => "Jan" | 1 => "Feb" | 2 => "Mar" | 3 => "Apr"
      | 4 => "May" | 5 => "Jun" | 6 => "Jul" | 7 => "Aug"
      | 8 => "Sep" | 9 => "Oct" | 10 => "Nov" | _ => "Dec"
      end).

Section Formats.

Variable tza : Z -> bool -> Z.

(** "3:05 PM" *)
Definition enUS_time (tv : Z) : jsstring :=
  let t := ES.LocalTime tza tv in
  let h := ES.HourFromTime t in
  let h12 := if h mod 12 =? 0 then 12 else h mod 12 in
  NumberToString h12 ++ js ":" ++ pad2 (ES.MinFromTime t) ++ js " "
    ++ (if h <? 12 then js "AM" else js "PM").

(** "Tue, Jan 5, 3:05 PM" *)
Definition enUS_date (tv : Z) : jsstring :=
  let t := ES.LocalTime tza tv in
  shortWeekday (ES.WeekDay t) ++ js ", " ++ shortMonth (ES.MonthFromTime t)
    ++ js " " ++ NumberToString (ES.DateFromTime t) ++ js ", " ++ enUS_time tv.

End Formats.

Definition jsstring_eqb (a b : jsstring) : bool :=
  if list_eq_dec N.eq_dec a b then true else false.

(** The phrases the stand-in grammar knows, each with its distance from the
    reference instant in milliseconds. *)
Definition phrases : list (string * Z) :=
  [ ("now", 0);
    ("30 minutes ago", -30 * ES.msPerMinute);
    ("1 hour ago", - ES.msPerHour);
    ("2 hours ago", -2 * ES.msPerHour);
    ("1 day ago", - ES.msPerDay);
    ("3 days ago", -3 * ES.msPerDay);
    ("3 weeks ago", -21 * ES.msPerDay);
    ("in 5 hours", 5 * ES.msPerHour);
    ("tomorrow", ES.msPerDay);
    ("in 3 days", 3 * ES.msPerDay) ]%string.

Definition tableGrammar (text : jsstring) (ref : Z) : list chrono.ParsedResult :=
  match find (fun p => jsstring_eqb (js (fst p)) text) phrases with
  | Some (_, offset) =>
      [ {| chrono.index := 0; chrono.text := text; chrono.date := ref + offset |} ]
  | None => []
  end.

Definition host (tza : Z -> bool -> Z) : Host :=
  {| LocalTZA := tza;
     toLocaleTimeString := enUS_time tza;
     toLocaleDateString := enUS_date tza;
     grammar := tableGrammar |}.

(** 2024-06-15T12:00:00Z, the reference instant of the specification's
    scenarios. *)
Definition noon : Z := 1718452800000.

End Sample.

(* ================================================================= *)
(** ** The clock readings of one resolution

    [parseTimeExpression] never receives a reference instant: chrono reads
    the clock first (its reference), [const now = new Date()] in
    [parseTimeExpression] reads it next, and [generateDescription] reads it
    once more for its own [now]. *)

Definition nowOfChrono (w : World) : Z := clock w 0%nat.
Definition nowOfParse (w : World) : Z := clock w 1%nat.
Definition nowOfDescription (w : World) : Z := clock w 2%nat.

(* ================================================================= *)
(** ** The description, in the words of the specification *)

Module Spec.

(** "{count} unit(s)": singular exactly when the count is 1. *)
Definition counted (count : Z) (unit : string) : jsstring :=
  NumberToString count ++ js " " ++ js unit ++ (if count =? 1 then [] else js "s").

Section Description.

Variable host : Host.

(** The description of [resolvedInstant] seen from [now], by the floored
    differences in minutes, hours and days. *)
Definition description (expression : jsstring) (resolvedInstant now : Z)
  : jsstring :=
  let deltaMinutes := (now - resolvedInstant) / 60000 in
  let deltaHours := (now - resolvedInstant) / 3600000 in
  let deltaDays := (now - resolvedInstant) / 86400000 in
  let localTime := toLocaleTimeString host resolvedInstant in
  let formattedCalendarDate := toLocaleDateString host resolvedInstant in
  if deltaMinutes <? 60 then counted deltaMinutes "minute" ++ js " ago"
  else if deltaHours <? 24 then counted deltaHours "hour" ++ js " ago"
  else if deltaDays <? 7 then
    if deltaDays =? 1 then js "yesterday at " ++ localTime
    else counted deltaDays "day" ++ js " ago at " ++ localTime
  else expression ++ js " (" ++ formattedCalendarDate ++ js ")".

End Description.

(** A description in day-count form for one day: "1 day ago ...",
    "1 days ago ...", "1 day(s) ago ...". *)
Definition oneDayCountForm (s : jsstring) : Prop :=
  exists rest, s = js "1 day" ++ rest.

End Spec.

(* ================================================================= *)
(** ** The rest of TimeParser *)

Section FormatTimestamp.

(** [Date.prototype.toLocaleString()] of a date with the given time value,
    [None] for an invalid date: the host's default locale and time zone. *)
Variable toLocaleString : option Z -> jsstring.

(** [new Date(timestamp * 1000).toLocaleString()]. *)
Definition formatTimestamp (timestamp : Z) : jsstring :=
  let date := ES.TimeClip (timestamp * 1000) in
  toLocaleString date.

End FormatTimestamp.

(* ================================================================= *)
(** ** More built-ins of strings and arrays *)

Module Builtins.

(** [s.startsWith(t)]. *)
Fixpoint startsWith (s t : jsstring) {struct t} : bool :=
  match t, s with
  | [], _ => true
  | _ :: _, [] => false
  | c :: t', d :: s' => (c =? d)%N && startsWith s' t'
  end.

(** [s.includes(t)]: [t] occurs in [s] as a run of code units. *)
Fixpoint includes (s t : jsstring) : bool :=
  if startsWith s t then true
  else match s with
       | [] => false
       | _ :: r => includes r t
       end.

(** [s.padStart(maxLength, fillString)]: the filler is repeated and cut to
    the length that is missing; an empty filler pads nothing. *)
Definition padStart (s : jsstring) (maxLength : nat) (fillString : jsstring)
  : jsstring :=
  let fillLen := (maxLength - List.length s)%nat in
  match fillString with
  | [] => s
  | _ :: _ => firstn fillLen (List.concat (repeat fillString fillLen)) ++ s
  end.

(** [s.slice(start, end)]: a negative index counts from the end. *)
Definition slice (s : jsstring) (relativeStart relativeEnd : Z) : jsstring :=
  let len := Z.of_nat (List.length s) in
  let from := if relativeStart <? 0 then Z.max (len + relativeStart) 0
              else Z.min relativeStart len in
  let to := if relativeEnd <? 0 then Z.max (len + relativeEnd) 0
            else Z.min relativeEnd len in
  firstn (Z.to_nat (to - from)) (skipn (Z.to_nat from) s).

(** Strict equality of two strings. *)
Definition strictEquals (a b : jsstring) : bool :=
  if list_eq_dec N.eq_dec a b then true else false.

Section ArraySort.

Variable A : Type.

(** The comparator: negative when the first argument sorts first. *)
Variable comparefn : A -> A -> Z.

(** Where a new element goes in a sorted array: before the first element
    it does not sort after. *)
Fixpoint insertSorted (x : A) (l : list A) : list A :=
  match l with
  | [] => [x]
  | y :: r => if comparefn x y <=? 0 then x :: l else y :: insertSorted x r
  end.

(** [Array.prototype.sort(comparefn)], which ECMA-262 requires to be
    stable: the elements in the order of the comparator, those that compare
    equal in their original order. *)
Fixpoint sort (l : list A) : list A :=
  match l with
  | [] => []
  | x :: r => insertSorted x (sort r)
  end.

End ArraySort.

End Builtins.

(* ================================================================= *)
(** ** Channels and the channel browser *)

Module Types.

Record Channel := mkChannel {
  number : Z;
  name : jsstring;
  url : jsstring;
  image : jsstring
}.

End Types.

(** The state of [ZappingUI] that the search box and the channel list work
    on.  A widget that has not been created is [None]; of a text box the
    state keeps the value, of the list its items and its label.  Rendering
    and focus only draw on the screen and are left out. *)
Module ZappingUI.

Record ListElement := mkListElement {
  items : list jsstring;
  label : jsstring
}.

Record UI := mkUI {
  searchBox : option jsstring;
  channelList : option ListElement;
  token : option jsstring;
  channels : list Types.Channel;
  filteredChannels : list Types.Channel
}.

(** A key event of blessed: [ch] is [None] when the key has no character. *)
Record Key := mkKey {
  name : option jsstring;
  ctrl : bool;
  meta : bool;
  shift : bool
}.

(** The keys [handleDirectTyping] leaves to other handlers. *)
Definition navigationKeys : list jsstring :=
  [ js "return"; js "enter"; js "escape"; js "tab";
    js "up"; js "down"; js "left"; js "right" ].

Definition nameIs (key : Key) (n : jsstring) : bool :=
  match name key with
  | Some k => Builtins.strictEquals k n
  | None => false
  end.

(** [(a, b) => a.number - b.number]. *)
Definition byNumber (a b : Types.Channel) : Z := Types.number a - Types.number b.

(** The order [sort] puts the channels in. *)
Definition numberLe (a b : Types.Channel) : Prop :=
  Types.number a <= Types.number b.

(** A row of the channel list: the number padded to three columns. *)
Definition listItem (channel : Types.Channel) : jsstring :=
  Builtins.padStart (NumberToString (Types.number channel)) 3 (js " ")
    ++ js " - " ++ Types.name channel.

Definition updateChannelList (ui : UI) : UI :=
  match channelList ui with
  | None => ui
  | Some _ =>
      let items := map listItem (filteredChannels ui) in
      {| searchBox := searchBox ui;
         channelList :=
           Some {| items := items;
                   label := js " Channels ("
                      ++ NumberToString (Z.of_nat (List.length (filteredChannels ui)))
                      ++ js "/"
                      ++ NumberToString (Z.of_nat (List.length (channels ui)))
                      ++ js ") " |};
         token := token ui;
         channels := channels ui;
         filteredChannels := filteredChannels ui |}
  end.

(** [createMainUI]: a new, empty search box and a new, empty list. *)
Definition createMainUI (ui : UI) : UI :=
  {| searchBox := Some [];
     channelList :=
       Some {| items := [];
               label := js " Channels (Use arrow keys to navigate, Enter to select) " |};
     token := token ui;
     channels := channels ui;
     filteredChannels := filteredChannels ui |}.

(** [loadChannels] once the channel list has arrived: [values] is
    [Object.values(channelList.data)]. *)
Definition loadChannels_loaded (ui : UI) (values : list Types.Channel) : UI :=
  let sorted := Builtins.sort Types.Channel byNumber values in
  updateChannelList
    {| searchBox := searchBox ui;
       channelList := channelList ui;
       token := token ui;
       channels := sorted;
       filteredChannels := sorted |}.

(** The handler of the list's [select] event: the channel to play. *)
Definition selectedChannel (ui : UI) (index : nat) : option Types.Channel :=
  nth_error (filteredChannels ui) index.

Section Search.

(** [String.prototype.toLowerCase], the case mapping of the host's Unicode
    tables. *)
Variable toLowerCase : jsstring -> jsstring.

(** The test of [filterChannels] on one channel. *)
Definition matches (term : jsstring) (channel : Types.Channel) : bool :=
  Builtins.includes (toLowerCase (Types.name channel)) term
  || Builtins.includes (NumberToString (Types.number channel)) term.

Definition filterChannels (ui : UI) (searchTerm : jsstring) : UI :=
  let term := trim (toLowerCase searchTerm) in
  let filtered :=
    match term with
    | [] => channels ui
    | _ :: _ => filter (matches term) (channels ui)
    end in
  updateChannelList
    {| searchBox := searchBox ui;
       channelList := channelList ui;
       token := token ui;
       channels := channels ui;
       filteredChannels := filtered |}.

Definition setValue (ui : UI) (value : jsstring) : UI :=
  {| searchBox := Some value;
     channelList := channelList ui;
     token := token ui;
     channels := channels ui;
     filteredChannels := filteredChannels ui |}.

Definition handleDirectTyping (ui : UI) (ch : option jsstring) (key : Key) : UI :=
  match searchBox ui, channelList ui with
  | Some currentValue, Some _ =>
      if negb (match ch with Some c => truthy c | None => false end)
         || ctrl key || meta key || shift key then ui
      else if existsb (nameIs key) navigationKeys then ui
      else if nameIs key (js "backspace") then
        if truthy currentValue then
          let newValue := Builtins.slice currentValue 0 (-1) in
          filterChannels (setValue ui newValue) newValue
        else ui
      else
        match ch with
        | Some [c] =>
            if (32 <=? c)%N then
              let newValue := currentValue ++ [c] in
              filterChannels (setValue ui newValue) newValue
            else ui
        | _ => ui
        end
  | _, _ => ui
  end.

Definition clearSearch (ui : UI) : UI :=
  match searchBox ui with
  | Some _ => filterChannels (setValue ui []) []
  | None => ui
  end.

(** The handler bound to the escape key: it clears a search that is not
    empty and otherwise quits, [None]. *)
Definition onEscape (ui : UI) : option UI :=
  let currentSearch := match searchBox ui with Some v => v | None => [] end in
  if truthy currentSearch then Some (clearSearch ui) else None.

(** The test of [runCLI] on one channel for [--channel]. *)
Definition answersQuery (channelQuery : jsstring) (ch : Types.Channel) : bool :=
  Builtins.includes (toLowerCase (Types.name ch)) channelQuery
  || Builtins.strictEquals (NumberToString (Types.number ch)) channelQuery.

(** The channel [runCLI] plays for [--channel]: [values] is
    [Object.values(channelListResponse.data)]. *)
Definition findChannel (values : list Types.Channel) (option_channel : jsstring)
  : option Types.Channel :=
  let channels := Builtins.sort Types.Channel byNumber values in
  let channelQuery := toLowerCase option_channel in
  find (answersQuery channelQuery) channels.

(** What can happen to the browser while one screen is up: a key press,
    the escape key, the arrival of the channel list. *)
Inductive Event :=
| Keypress (ch : option jsstring) (key : Key)
| Escape
| Loaded (values : list Types.Channel).

(** The state after an event, [None] when the program quits. *)
Definition step (ui : UI) (ev : Event) : option UI :=
  match ev with
  | Keypress ch key => Some (handleDirectTyping ui ch key)
  | Escape => onEscape ui
  | Loaded values => Some (loadChannels_loaded ui values)
  end.

Fixpoint run (ui : UI) (events : list Event) : option UI :=
  match events with
  | [] => Some ui
  | ev :: rest =>
      match step ui ev with
      | Some ui' => run ui' rest
      | None => None
      end
  end.

(** The channels a search value selects. *)
Definition searchResult (ui : UI) (value : jsstring) : list Types.Channel :=
  match trim (toLowerCase value) with
  | [] => channels ui
  | term => filter (matches term) (channels ui)
  end.

(** The filtered channels are the ones the text in the search box selects. *)
Definition searchApplied (ui : UI) : Prop :=
  match searchBox ui with
  | Some value => filteredChannels ui = searchResult ui value
  | None => True
  end.

End Search.

(** The rows of the list are the filtered channels, in order. *)
Definition rowsShown (ui : UI) : Prop :=
  match channelList ui with
  | Some l => items l = map listItem (filteredChannels ui)
  | None => True
  end.

Definition isKeypress (ev : Event) : bool :=
  match ev with Loaded _ => false | _ => true end.

End ZappingUI.

(** Sample data for the channel browser. *)
Module SampleUI.

(** Lower case of the ASCII letters, which is what [toLowerCase] does on
    ASCII text. *)
Definition toLowerCase (s : jsstring) : jsstring :=
  map (fun c => if (65 <=? c)%N && (c <=? 90)%N then (c + 32)%N else c) s.

Definition channel (n : Z) (name : string) : Types.Channel :=
  {| Types.number := n; Types.name := js name;
     Types.url := js "https://stream.example/" ++ NumberToString n;
     Types.image := [] |}.

Definition lineup : list Types.Channel :=
  [ channel 21 "Canal 13"; channel 7 "TVN"; channel 13 "Mega";
    channel 7 "TVN HD"; channel 104 "CNN Chile" ].

Definition plainKey (name : string) : ZappingUI.Key :=
  {| ZappingUI.name := Some (js name); ZappingUI.ctrl := false;
     ZappingUI.meta := false; ZappingUI.shift := false |}.

(** The browser once the screen is up and the lineup has arrived. *)
Definition browser : ZappingUI.UI :=
  ZappingUI.loadChannels_loaded
    (ZappingUI.createMainUI
       {| ZappingUI.searchBox := None; ZappingUI.channelList := None;
          ZappingUI.token := Some (js "token");
          ZappingUI.channels := []; ZappingUI.filteredChannels := [] |})
    lineup.

End SampleUI.

(* ================================================================= *)
(** ** PlayerService

    The player keeps three things: the mpv process it spawned, the timer of
    the heartbeat and the play token.  Its methods are embedded as functions
    from the state to the new state and the actions taken on the outside
    (timers, signals, requests), in order.  Calls to the logger, which only
    write to the log file, are not part of the actions. *)

Module PlayerService.

(** A child process as the player sees it; [killed] is the flag that
    [kill()] sets once a signal has been sent. *)
Record ChildProcess := mkChildProcess {
  pid : nat;
  killed : bool
}.

Record State := mkState {
  mpvProcess : option ChildProcess;
  heartbeatInterval : option nat;
  playToken : option jsstring
}.

Inductive Action :=
| ClearInterval (timer : nat)
| SetInterval (timer : nat) (milliseconds : Z)
| Kill (process : nat)
| Heartbeat (playToken : jsstring).

(** [!this.playToken] is false for a token that is a non-empty string. *)
Definition tokenOf (s : State) : option jsstring :=
  match playToken s with
  | Some t => if truthy t then Some t else None
  | None => None
  end.

(** [sendHeartbeat]: the request goes out only while there is a play token;
    a request that fails is logged and nothing is thrown. *)
Definition sendHeartbeat (s : State) : list Action :=
  match tokenOf s with
  | Some t => [Heartbeat t]
  | None => []
  end.

(** [startHeartbeat]; [timer] is the timer that [setInterval] returns. *)
Definition startHeartbeat (s : State) (timer : nat) : State * list Action :=
  match tokenOf s with
  | None => (s, [])
  | Some _ =>
      ({| mpvProcess := mpvProcess s;
          heartbeatInterval := Some timer;
          playToken := playToken s |},
       sendHeartbeat s ++ [SetInterval timer 25000])
  end.

Definition cleanup (s : State) : State * list Action :=
  let stopped :=
    match heartbeatInterval s with
    | Some timer => [ClearInterval timer]
    | None => []
    end in
  let (process, killed) :=
    match mpvProcess s with
    | Some p => if negb (killed p) then (None, [Kill (pid p)]) else (Some p, [])
    | None => (None, [])
    end in
  ({| mpvProcess := process; heartbeatInterval := None; playToken := None |},
   stopped ++ killed).

(** The stream URL of [playChannel]. *)
Definition liveUrl (channel : Types.Channel) (playToken : jsstring) : jsstring :=
  Types.url channel ++ js "?token=" ++ playToken.

(** The stream URL of [playChannelAtTime]; [endTime] is [None] when the
    argument is left out. *)
Definition timeUrl (channel : Types.Channel) (playToken : jsstring)
  (startTime : Z) (endTime : option Z) : jsstring :=
  let streamUrl :=
    Types.url channel ++ js "?token=" ++ playToken
      ++ js "&startTime=" ++ NumberToString startTime in
  match endTime with
  | Some e =>
      if negb (e =? 0) then streamUrl ++ js "&endTime=" ++ NumberToString e
      else streamUrl
  | None => streamUrl
  end.

End PlayerService.

(* ================================================================= *)
(** ** Activation: ApiService, ConfigService, AuthService

    An asynchronous method is embedded by what its promise settles to, given
    what the requests it awaits come to.  Calls to the logger and to the
    login box only write to the log file and to the screen; they are not
    part of the embedding. *)

Module Exceptions.

(** A thrown error, by its message. *)
Record Error := mkError {
  message : jsstring
}.

Inductive Completion (A : Type) :=
| Returned (a : A)
| Thrown (e : Error).

Arguments Returned {A} a.
Arguments Thrown {A} e.

(** [a || b] on strings, where [a] may be undefined. *)
Definition orElse (a : option jsstring) (b : jsstring) : jsstring :=
  match a with
  | Some m => if truthy m then m else b
  | None => b
  end.

End Exceptions.

Module ApiService.

Import Exceptions.

Definition ACTIVATION_GET_CODE : jsstring :=
  js "https://meteoro.zappingtv.com/activation/V30/androidtv/getcode".

Definition ACTIVATION_CHECK_LINKED : jsstring :=
  js "https://meteoro.zappingtv.com/activation/V30/androidtv/linked".

(** How an awaited [axios.post] fails, by the cases the [catch] blocks tell
    apart: a response with an error status ([error.response], with
    [error.response.data?.message]), no response ([error.request]), or
    anything else. *)
Inductive AxiosError :=
| ErrorResponse (status : Z) (statusText : jsstring) (dataMessage : option jsstring)
| NoResponse
| OtherError (error : Error).

Inductive Posted (D : Type) :=
| Response (status : Z) (data : D)
| Rejected (error : AxiosError).

Arguments Response {D} status data.
Arguments Rejected {D} error.

(** [response.data.status] of the "linked" endpoint: a boolean, or any other
    value, kept as the text a template shows for it. *)
Inductive StatusValue :=
| StatusBool (b : bool)
| StatusOther (shown : jsstring).

Definition showStatus (v : StatusValue) : jsstring :=
  match v with
  | StatusBool true => js "true"
  | StatusBool false => js "false"
  | StatusOther shown => shown
  end.

(** [response.data] of the "linked" endpoint: [data] is [None] when
    [response.data.data] is missing, [Some None] when its [data] is. *)
Record CheckLinkedResponse := mkCheckLinkedResponse {
  status : StatusValue;
  data : option (option jsstring)
}.

Record Linked := mkLinked {
  linkedStatus : bool;
  token : jsstring
}.

(** [getActivationCode], from what the request comes to; the response
    carries [response.data.data.code]. *)
Definition getActivationCode (posted : Posted jsstring) : Completion jsstring :=
  match posted with
  | Response _ code => Returned code
  | Rejected (ErrorResponse status statusText dataMessage) =>
      Thrown {| message :=
                  js "Failed to get activation code - HTTP "
                    ++ NumberToString status ++ js ": "
                    ++ orElse dataMessage statusText |}
  | Rejected NoResponse =>
      Thrown {| message :=
                  js "Network error: Could not connect to "
                    ++ ACTIVATION_GET_CODE |}
  | Rejected (OtherError error) => Thrown error
  end.

(** [checkCodeLinked], from what the request comes to.  The errors thrown
    on a response that does not carry a token pass through the [catch]
    block unchanged: they have neither a response nor a request. *)
Definition checkCodeLinked (posted : Posted CheckLinkedResponse)
  : Completion Linked :=
  match posted with
  | Response _ response =>
      match status response with
      | StatusBool true =>
          match data response with
          | Some (Some t) =>
              if truthy t then Returned {| linkedStatus := true; token := t |}
              else Thrown {| message := js "No token received from server" |}
          | _ => Thrown {| message := js "No token received from server" |}
          end
      | other =>
          Thrown {| message := js "API returned status: " ++ showStatus other |}
      end
  | Rejected (ErrorResponse status statusText dataMessage) =>
      Thrown {| message :=
                  js "HTTP " ++ NumberToString status ++ js ": "
                    ++ orElse dataMessage
                         (orElse (Some statusText) (js "Unknown server error")) |}
  | Rejected NoResponse =>
      Thrown {| message :=
                  js "Network error: Could not connect to "
                    ++ ACTIVATION_CHECK_LINKED |}
  | Rejected (OtherError error) => Thrown error
  end.

End ApiService.

Module ConfigService.

Import Exceptions.

Section FileSystem.

(** The files of the user, the log file apart. *)
Variable Disk : Type.

(** The calls of [fs] and [path] that the configuration makes.  A call that
    writes gives the disk it leaves and the error it throws, if any. *)
Record FileSystem := mkFileSystem {
  existsSync : jsstring -> Disk -> bool;
  readFileSync : jsstring -> Disk -> Completion jsstring;
  writeFileSync : jsstring -> jsstring -> Disk -> Disk * option Error;
  mkdirSync : jsstring -> Disk -> Disk * option Error;
  dirname : jsstring -> jsstring
}.

Variable fs : FileSystem.

(** [`${process.env['HOME']}/.config/zapping-node`], fixed when the module
    is loaded. *)
Variable CONFIG_FILE : jsstring.

Definition exists_ (d : Disk) : bool := existsSync fs CONFIG_FILE d.

Definition loadToken (d : Disk) : option jsstring :=
  if negb (exists_ d) then None
  else
    match readFileSync fs CONFIG_FILE d with
    | Returned content => Some (trim content)
    | Thrown _ => None
    end.

Definition saveToken (token : jsstring) (d : Disk) : Disk * option Error :=
  let configDir := dirname fs CONFIG_FILE in
  let (d1, failed) :=
    if negb (existsSync fs configDir d) then mkdirSync fs configDir d
    else (d, None) in
  match failed with
  | Some e => (d1, Some e)
  | None => writeFileSync fs CONFIG_FILE token d1
  end.

(** The file system keeps the token written to the configuration file: it
    is there afterwards and reads back as written. *)
Definition keeps (token : jsstring) : Prop :=
  forall d d',
    writeFileSync fs CONFIG_FILE token d = (d', None) ->
    existsSync fs CONFIG_FILE d' = true /\
    readFileSync fs CONFIG_FILE d' = Returned token.

End FileSystem.

End ConfigService.

Module AuthService.

Import Exceptions.

(** The requests [authenticate] sends. *)
Inductive Request :=
| GetCode
| CheckLinked (code : jsstring).

Section Authenticate.

Variable Disk : Type.
Variable fs : ConfigService.FileSystem Disk.
Variable CONFIG_FILE : jsstring.

(** What the two requests come to. *)
Variable postGetCode : ApiService.Posted jsstring.
Variable postCheckLinked : jsstring -> ApiService.Posted ApiService.CheckLinkedResponse.

(** [authenticate] from its [try] block on: the activation code, the
    check that it is linked, the token saved.  An error thrown on the way is
    shown and thrown again by the [catch] block. *)
Definition login (d : Disk) : Completion jsstring * Disk * list Request :=
  match ApiService.getActivationCode postGetCode with
  | Thrown error => (Thrown error, d, [GetCode])
  | Returned code =>
      match ApiService.checkCodeLinked (postCheckLinked code) with
      | Thrown error => (Thrown error, d, [GetCode; CheckLinked code])
      | Returned linked =>
          if ApiService.linkedStatus linked && truthy (ApiService.token linked)
          then
            match ConfigService.saveToken Disk fs CONFIG_FILE
                    (ApiService.token linked) d with
            | (d', None) =>
                (Returned (ApiService.token linked), d',
                 [GetCode; CheckLinked code])
            | (d', Some error) =>
                (Thrown error, d', [GetCode; CheckLinked code])
            end
          else
            (Thrown
               {| message :=
                    js "Code linking failed: API returned status '"
                      ++ (if ApiService.linkedStatus linked
                          then js "true" else js "false")
                      ++ js "'. Make sure you activated the code on the website." |},
             d, [GetCode; CheckLinked code])
      end
  end.

(** [authenticate]: what the promise settles to, the disk it leaves and the
    requests it sent. *)
Definition authenticate (d : Disk)
  : Completion jsstring * Disk * list Request :=
  let savedToken := ConfigService.loadToken Disk fs CONFIG_FILE d in
  match savedToken with
  | Some saved => if truthy saved then (Returned saved, d, []) else login d
  | None => login d
  end.

End Authenticate.

End AuthService.

(** A disk for the examples: the files by path, the last one written first. *)
Module SampleDisk.

Import Exceptions.

Definition Disk : Type := list (jsstring * jsstring).

Fixpoint upToLastSlash (reversed : jsstring) : jsstring :=
  match reversed with
  | [] => []
  | c :: r => if (c =? 47)%N then r else upToLastSlash r
  end.

Definition fs : ConfigService.FileSystem Disk :=
  {| ConfigService.existsSync := fun p d =>
       existsb (fun f => Builtins.strictEquals (fst f) p) d;
     ConfigService.readFileSync := fun p d =>
       match find (fun f => Builtins.strictEquals (fst f) p) d with
       | Some f => Returned (snd f)
       | None => Thrown {| message := js "ENOENT: no such file or directory" |}
       end;
     ConfigService.writeFileSync := fun p text d => ((p, text) :: d, None);
     ConfigService.mkdirSync := fun p d => (d, None);
     ConfigService.dirname := fun p => rev (upToLastSlash (rev p)) |}.

Definition CONFIG_FILE : jsstring := js "/home/ana/.config/zapping-node".

End SampleDisk.

(* ================================================================= *)
(** ** The time dialog of the browser *)

Module TimeDialog.

(** What the [submit] handler of [showTimeInputDialog] does with the text
    entered: close the dialog, show an error, or play from the resolved
    time. *)
Inductive Submitted :=
| Dismissed
| Refused (message : jsstring)
| Accepted (parsedTime : ParsedTime).

Section Submit.

Variable host : Host.

(** The quotation mark of the error message. *)
Definition quote : jsstring := [34%N].

Definition submit (value : jsstring) : M Submitted :=
  let timeExpression := trim value in
  if negb (truthy timeExpression) then ret Dismissed
  else
    parsedTime <- parseTimeExpression host timeExpression ;;
    match parsedTime with
    | None =>
        ret (Refused
               (js "Invalid time expression: " ++ quote ++ timeExpression
                  ++ quote ++ [10%N] ++ js "Use natural language like "
                  ++ quote ++ js "2 hours ago" ++ quote ++ js " or "
                  ++ quote ++ js "yesterday 3pm" ++ quote))
    | Some parsed => ret (Accepted parsed)
    end.

End Submit.

End TimeDialog.

(* ================================================================= *)
(** ** The command line

    [runCLI] is embedded by what it prints, what it sets off outside the
    process and how it ends, given what the requests and the player come
    to.  As before, calls to the logger are not part of the embedding.

    The embedding is of the statements of [runCLI] from [program.opts()]
    on, in a run that nothing cuts short.  Two ways in which the process
    can end are therefore not in it, because they are not statements of
    [runCLI]: commander leaves through [process.exit] inside
    [program.parse()] ([--help] and [--version] with code 0, a usage error
    after a message of its own), before there are options; and the handlers
    that [new PlayerService()] installs end the process when a signal
    arrives (code 0) or an exception or a rejection is left uncaught
    (code 1), at whatever point [runCLI] has reached, without a line on
    the console. *)

Module CLI.

Import Exceptions.

(** The options as commander leaves them: a flag is set or not, an option
    with a value is a string or undefined. *)
Record Options := mkOptions {
  channel : option jsstring;
  time : option jsstring;
  list_ : bool;
  examples : bool
}.

(** A line on the console: [console.log] or [console.error]. *)
Inductive Line :=
| Out (text : jsstring)
| Err (text : jsstring).

(** What [runCLI] sets off outside the process. *)
Inductive Action :=
| Request (request : AuthService.Request)
| GetChannelList (token : jsstring)
| PlayChannel (channel : Types.Channel) (token : jsstring)
| PlayChannelAtTime (channel : Types.Channel) (token : jsstring) (startTime : Z).

(** How [runCLI] ends: it returns, it calls [process.exit] itself (one of
    the four calls in its body), or it hands over to the browser. *)
Inductive Status :=
| Done
| Exit (code : Z)
| Browser.

Record Result := mkResult {
  console : list Line;
  actions : list Action;
  status : Status
}.

(** An option with a value that is not the empty string. *)
Definition given (o : option jsstring) : option jsstring :=
  match o with
  | Some v => if truthy v then Some v else None
  | None => None
  end.

(** The [catch] block of [runCLI]. *)
Definition fatal (console : list Line) (actions : list Action) (error : Error)
  : Result :=
  {| console := console ++ [Err (js "Error: " ++ message error)];
     actions := actions;
     status := Exit 1 |}.

Section Run.

Variable host : Host.
Variable toLowerCase : jsstring -> jsstring.
Variable Disk : Type.
Variable fs : ConfigService.FileSystem Disk.
Variable CONFIG_FILE : jsstring.

(** What the requests and the player's promises come to. *)
Variable postGetCode : ApiService.Posted jsstring.
Variable postCheckLinked : jsstring -> ApiService.Posted ApiService.CheckLinkedResponse.
Variable getChannelList : jsstring -> Completion (list Types.Channel).
Variable played : Action -> Completion unit.

(** [runCLI] from the channel list on. *)
Definition play (options : Options) (w : World) (token : jsstring)
  (console : list Line) (actions : list Action) : Result :=
  match getChannelList token with
  | Thrown error => fatal console (actions ++ [GetChannelList token]) error
  | Returned values =>
      let actions := actions ++ [GetChannelList token] in
      let channels := Builtins.sort Types.Channel ZappingUI.byNumber values in
      if list_ options then
        {| console :=
             console ++ Out (js "Available channels:")
               :: map (fun channel =>
                         Out (js "  " ++ NumberToString (Types.number channel)
                                ++ js ": " ++ Types.name channel))
                      channels;
           actions := actions;
           status := Done |}
      else
        match given (channel options) with
        | None => {| console := console; actions := actions; status := Browser |}
        | Some query =>
            match ZappingUI.findChannel toLowerCase values query with
            | None =>
                {| console :=
                     console ++ [Err (js "Channel not found: " ++ query);
                                 Err (js "Use --list to see available channels")];
                   actions := actions;
                   status := Exit 1 |}
            | Some found =>
                match given (time options) with
                | Some expression =>
                    match valueOf (parseTimeExpression host expression) w with
                    | None =>
                        {| console :=
                             console ++ [Err (js "Invalid time expression: "
                                                ++ expression);
                                         Err (js "Use --examples to see supported formats")];
                           actions := actions;
                           status := Exit 1 |}
                    | Some parsedTime =>
                        let console :=
                          console ++ [Out (js "Playing " ++ Types.name found
                                             ++ js ": " ++ description parsedTime)] in
                        let playing :=
                          PlayChannelAtTime found token (timestamp parsedTime) in
                        match played playing with
                        | Thrown error => fatal console (actions ++ [playing]) error
                        | Returned _ =>
                            {| console := console;
                               actions := actions ++ [playing];
                               status := Done |}
                        end
                    end
                | None =>
                    let console :=
                      console ++ [Out (js "Playing " ++ Types.name found
                                         ++ js ": Live")] in
                    let playing := PlayChannel found token in
                    match played playing with
                    | Thrown error => fatal console (actions ++ [playing]) error
                    | Returned _ =>
                        {| console := console;
                           actions := actions ++ [playing];
                           status := Done |}
                    end
                end
            end
        end
  end.

(** [runCLI] once commander has returned the options: what it prints and
    sets off, how it ends, and the disk it leaves.  [w] is the world as
    [parseTimeExpression] finds it. *)
Definition runCLI (options : Options) (d : Disk) (w : World) : Result * Disk :=
  if examples options then
    ({| console :=
          Out (js "Supported time expressions:")
            :: map (fun example => Out (js "  - " ++ example)) getExamples;
        actions := [];
        status := Done |}, d)
  else if negb (ConfigService.exists_ Disk fs CONFIG_FILE d) then
    let console :=
      [Out (js "Authentication required. Please visit the browser window to authenticate.")] in
    match AuthService.authenticate Disk fs CONFIG_FILE postGetCode
            postCheckLinked d with
    | (Thrown error, d', requests) =>
        (fatal console (map Request requests) error, d')
    | (Returned token, d', requests) =>
        if truthy token then
          (play options w token console (map Request requests), d')
        else
          ({| console := console ++ [Err (js "Authentication failed")];
              actions := map Request requests;
              status := Exit 1 |}, d')
    end
  else
    match given (ConfigService.loadToken Disk fs CONFIG_FILE d) with
    | Some token => (play options w token [] [], d)
    | None =>
        ({| console := [Err (js "Authentication failed")];
            actions := [];
            status := Exit 1 |}, d)
    end.

End Run.

Definition isRequest (a : Action) : bool :=
  match a with Request _ => true | _ => false end.

End CLI.

(** A command line to run: the sample host, the sample disk, a service
    that answers every request and a player that plays to the end. *)
Module SampleCLI.

Definition configured : SampleDisk.Disk :=
  [(SampleDisk.CONFIG_FILE, js "tok-123")].

Definition run (options : CLI.Options) (d : SampleDisk.Disk) : CLI.Result * SampleDisk.Disk :=
  CLI.runCLI (Sample.host Sample.utc) SampleUI.toLowerCase
    SampleDisk.Disk SampleDisk.fs SampleDisk.CONFIG_FILE
    (ApiService.Response 200 (js "ABC123"))
    (fun _ => ApiService.Response 200
                {| ApiService.status := ApiService.StatusBool true;
                   ApiService.data := Some (Some (js "tok-123")) |})
    (fun _ => Exceptions.Returned SampleUI.lineup)
    (fun _ => Exceptions.Returned tt)
    options d (frozen Sample.noon).

Definition options (channel time : option string) : CLI.Options :=
  {| CLI.channel := option_map js channel; CLI.time := option_map js time;
     CLI.list_ := false; CLI.examples := false |}.

End SampleCLI.

(* ================================================================= *)
(** * Properties *)

(** ** The embedding on sample inputs *)

Example trim_sample : trim (js "  2 hours ago  ") = js "2 hours ago".
Proof. reflexivity. Qed.

Example trim_sample_line_ends :
  trim (9 :: 160 :: 8232 :: js "now" ++ [10; 13; 65279])%N = js "now".
Proof. reflexivity. Qed.

Example NumberToString_sample :
  NumberToString 0 = js "0" /\ NumberToString 59 = js "59" /\
  NumberToString (-3) = js "-3".
Proof. repeat split. Qed.

(** 2024-06-15T12:00:00Z was a Saturday. *)
Example calendar_sample :
  ES.YearFromTime Sample.noon = 2024 /\ ES.MonthFromTime Sample.noon = 5 /\
  ES.DateFromTime Sample.noon = 15 /\ ES.WeekDay Sample.noon = 6 /\
  ES.HourFromTime Sample.noon = 12 /\ ES.MinFromTime Sample.noon = 0.
Proof. repeat split. Qed.

(** 2024-02-29T23:59:59.999Z and the millisecond after it. *)
Example calendar_sample_leap_day :
  (ES.MonthFromTime 1709251199999, ES.DateFromTime 1709251199999) = (1, 29) /\
  (ES.MonthFromTime 1709251200000, ES.DateFromTime 1709251200000) = (2, 1).
Proof. repeat split. Qed.

(** 1969-12-31T23:59:59.999Z. *)
Example calendar_sample_before_epoch :
  (ES.YearFromTime (-1), ES.MonthFromTime (-1), ES.DateFromTime (-1))
  = (1969, 11, 31).
Proof. reflexivity. Qed.

(** The scenarios of the specification that the stand-in grammar covers. *)
Example scenario_two_hours_ago :
  valueOf (parseTimeExpression (Sample.host Sample.utc) (js "2 hours ago"))
          (frozen Sample.noon)
  = Some {| timestamp := 1718445600; description := js "2 hours ago";
            date := 1718445600000 |}.
Proof. vm_compute. reflexivity. Qed.

Example scenario_three_weeks_ago :
  valueOf (parseTimeExpression (Sample.host Sample.utc) (js "3 weeks ago"))
          (frozen Sample.noon)
  = Some {| timestamp := 1716638400;
            description := js "3 weeks ago (Sat, May 25, 12:00 PM)";
            date := 1716638400000 |}.
Proof. vm_compute. reflexivity. Qed.

Example scenario_future_rejected :
  valueOf (parseTimeExpression (Sample.host Sample.utc) (js "in 3 days"))
          (frozen Sample.noon) = None.
Proof. vm_compute. reflexivity. Qed.

Example scenario_unknown_phrase :
  valueOf (parseTimeExpression (Sample.host Sample.utc) (js "whenever"))
          (frozen Sample.noon) = None.
Proof. vm_compute. reflexivity. Qed.

(** A clock that moves: the three readings of one resolution differ. *)
Example scenario_running_clock :
  valueOf (parseTimeExpression (Sample.host Sample.utc) (js "30 minutes ago"))
          {| clock := fun n => Sample.noon + 40000 * Z.of_nat n;
             chronoCalls := [] |}
  = Some {| timestamp := 1718451000; description := js "31 minutes ago";
            date := 1718451000000 |}.
Proof. vm_compute. reflexivity. Qed.

(** The day after the clocks went forward, 2:30 AM has no counterpart on
    the previous day: [setDate] lands on 3:30 AM, 23 hours earlier. *)
Example setDate_after_spring_forward :
  Sample.enUS_date Sample.pacific2024 1710149400000 = js "Mon, Mar 11, 2:30 AM" /\
  ES.setDate Sample.pacific2024 1710149400000
    (ES.getDate Sample.pacific2024 1710149400000 - 1)
  = Some (1710149400000 - 23 * ES.msPerHour) /\
  Sample.enUS_date Sample.pacific2024 (1710149400000 - 23 * ES.msPerHour)
  = js "Sun, Mar 10, 3:30 AM".
Proof. repeat split. Qed.

(** ** White space and [trim] *)

Lemma trimStart_blank (s : jsstring) :
  forallb isWhiteSpace s = true -> trimStart s = [].
Proof.
  induction s as [|c r IH]; simpl; [reflexivity|].
  intros H. apply andb_true_iff in H as [Hc Hr].
  rewrite Hc. auto.
Qed.

Lemma trimStart_nil_blank (s : jsstring) :
  trimStart s = [] -> forallb isWhiteSpace s = true.
Proof.
  induction s as [|c r IH]; simpl; [reflexivity|].
  destruct (isWhiteSpace c); simpl; [assumption | discriminate].
Qed.

(** What [trimStart] leaves does not start with white space. *)
Lemma trimStart_head (s : jsstring) :
  match trimStart s with
  | [] => True
  | c :: _ => isWhiteSpace c = false
  end.
Proof.
  induction s as [|c r IH]; simpl; [exact I|].
  destruct (isWhiteSpace c) eqn:Hc; [assumption|]. exact Hc.
Qed.

Lemma trimStart_fixed (c : N) (r : jsstring) :
  isWhiteSpace c = false -> trimStart (c :: r) = c :: r.
Proof. intros H. simpl. now rewrite H. Qed.

Lemma trimEnd_cons_kept (c : N) (r : jsstring) :
  isWhiteSpace c = false -> trimEnd (c :: r) = c :: trimEnd r.
Proof. intros H. simpl. destruct (trimEnd r); [now rewrite H | reflexivity]. Qed.

Lemma trimEnd_idem (s : jsstring) : trimEnd (trimEnd s) = trimEnd s.
Proof.
  induction s as [|c r IH]; [reflexivity|].
  simpl. destruct (trimEnd r) as [|d r'] eqn:Hr.
  - destruct (isWhiteSpace c) eqn:Hc; [reflexivity|]. simpl. now rewrite Hc.
  - change (trimEnd (c :: d :: r')) with
      (match trimEnd (d :: r') with
       | [] => if isWhiteSpace c then [] else [c]
       | r'' => c :: r''
       end).
    rewrite IH. reflexivity.
Qed.

(** The structural [trimEnd] is [trimStart] read from the other end. *)
Lemma trimStart_snoc (l : jsstring) (c : N) :
  trimStart (l ++ [c]) =
  match trimStart l with
  | [] => if isWhiteSpace c then [] else [c]
  | l' => l' ++ [c]
  end.
Proof.
  induction l as [|d l IH]; simpl.
  - destruct (isWhiteSpace c); reflexivity.
  - destruct (isWhiteSpace d); [exact IH | reflexivity].
Qed.

Lemma trimEnd_rev (s : jsstring) : trimEnd s = rev (trimStart (rev s)).
Proof.
  induction s as [|c r IH]; [reflexivity|].
  simpl. rewrite trimStart_snoc, IH.
  destruct (trimStart (rev r)) as [|d l] eqn:Hl; simpl.
  - destruct (isWhiteSpace c); reflexivity.
  - rewrite rev_app_distr. simpl.
    destruct (rev l ++ [d]) eqn:Hrev; [|reflexivity].
    now destruct (rev l).
Qed.

Theorem trim_idem (s : jsstring) : trim (trim s) = trim s.
Proof.
  unfold trim.
  pose proof (trimStart_head s) as Hh.
  destruct (trimStart s) as [|c r]; [reflexivity|].
  rewrite (trimEnd_cons_kept c r Hh), (trimStart_fixed c _ Hh).
  rewrite <- (trimEnd_cons_kept c r Hh). apply trimEnd_idem.
Qed.

(** A string trims to the empty string exactly when it is empty or all
    white space. *)
Lemma trim_blank_iff (s : jsstring) :
  truthy (trim s) = false <-> forallb isWhiteSpace s = true.
Proof.
  unfold trim. split.
  - intros H. apply trimStart_nil_blank.
    pose proof (trimStart_head s) as Hh.
    destruct (trimStart s) as [|c r]; [reflexivity|].
    rewrite (trimEnd_cons_kept c r Hh) in H. discriminate.
  - intros H. now rewrite (trimStart_blank s H).
Qed.

(** ** The calendar *)

Lemma MakeDate_Day (t : Z) : ES.MakeDate (ES.Day t) (ES.TimeWithinDay t) = t.
Proof.
  unfold ES.MakeDate, ES.Day, ES.TimeWithinDay.
  rewrite Z.mul_comm. symmetry. apply Z.div_mod. discriminate.
Qed.

(** [YearFromTime] is the year ECMA-262 asks for: the one whose first day is
    the last first-of-January not after [t]. *)
Lemma YearFromTime_spec (t : Z) :
  ES.DayFromYear (ES.YearFromTime t) <= ES.Day t
  < ES.DayFromYear (ES.YearFromTime t + 1).
Proof.
  unfold ES.YearFromTime.
  set (d := ES.Day t). set (y := 1970 + 400 * d / 146097).
  destruct (ES.DayFromYear (y + 1) <=? d) eqn:H1;
    [apply Z.leb_le in H1 | apply Z.leb_gt in H1].
  - split; [exact H1|]. unfold ES.DayFromYear in *. subst y.
    Z.to_euclidean_division_equations. lia.
  - destruct (ES.DayFromYear y <=? d) eqn:H2;
      [apply Z.leb_le in H2 | apply Z.leb_gt in H2].
    + split; assumption.
    + replace (y - 1 + 1) with y by lia. split; [|exact H2].
      unfold ES.DayFromYear in *. subst y.
      Z.to_euclidean_division_equations. lia.
Qed.

Lemma MonthFromTime_range (t : Z) : 0 <= ES.MonthFromTime t <= 11.
Proof.
  unfold ES.MonthFromTime.
  repeat match goal with |- context [if ?b then _ else _] => destruct b end; lia.
Qed.

(** Setting the day of the month relative to the current one moves the day
    number by as much, whatever the month and the year. *)
Lemma MakeDay_DateFromTime (t k : Z) :
  ES.MakeDay (ES.YearFromTime t) (ES.MonthFromTime t) (ES.DateFromTime t + k)
  = ES.Day t + k.
Proof.
  pose proof (MonthFromTime_range t) as Hm.
  unfold ES.MakeDay, ES.DateFromTime, ES.DayWithinYear, ES.InLeapYear.
  rewrite (Z.div_small _ 12), (Z.mod_small _ 12) by lia.
  rewrite Z.add_0_r. lia.
Qed.

Section SetDate.

Variable tza : Z -> bool -> Z.

(** [d.setDate(d.getDate() - 1)] asks the time zone for the instant at
    which the local clock shows the same time of day on the previous local
    calendar day. *)
Lemma setDate_getDate_pred (tv : Z) :
  ES.setDate tza tv (ES.getDate tza tv - 1) =
  ES.TimeClip (ES.UTC tza (ES.MakeDate (ES.Day (ES.LocalTime tza tv) - 1)
                                       (ES.TimeWithinDay (ES.LocalTime tza tv)))).
Proof.
  unfold ES.setDate, ES.getDate. cbv zeta.
  pose proof (MakeDay_DateFromTime (ES.LocalTime tza tv) (-1)) as H.
  change (ES.DateFromTime (ES.LocalTime tza tv) + -1)
    with (ES.DateFromTime (ES.LocalTime tza tv) - 1) in H.
  change (ES.Day (ES.LocalTime tza tv) + -1)
    with (ES.Day (ES.LocalTime tza tv) - 1) in H.
  now rewrite H.
Qed.

Lemma previous_day_local (t : Z) :
  ES.MakeDate (ES.Day t - 1) (ES.TimeWithinDay t) = t - ES.msPerDay.
Proof.
  rewrite <- (MakeDate_Day t) at 3. unfold ES.MakeDate. lia.
Qed.

(** In a zone with a fixed offset that is exactly 24 hours earlier. *)
Lemma setDate_getDate_pred_fixed (offset tv : Z) :
  (forall t b, tza t b = offset) ->
  ES.setDate tza tv (ES.getDate tza tv - 1) = ES.TimeClip (tv - ES.msPerDay).
Proof.
  intros Hfix. rewrite setDate_getDate_pred, previous_day_local.
  unfold ES.UTC, ES.LocalTime. rewrite !Hfix. f_equal. lia.
Qed.

End SetDate.

(** ** Running the resolver *)

(** The world after one more reading of the clock. *)
Lemma newDate_run (w : World) :
  newDate w = (clock w 0%nat,
               {| clock := fun n => clock w (S n); chronoCalls := chronoCalls w |}).
Proof. reflexivity. Qed.

Lemma floored_hours (diffMs : Z) : diffMs / (1000 * 60) / 60 = diffMs / 3600000.
Proof. rewrite Z.div_div by lia. reflexivity. Qed.

Lemma floored_days (diffMs : Z) : diffMs / (1000 * 60) / 60 / 24 = diffMs / 86400000.
Proof. rewrite !Z.div_div by lia. reflexivity. Qed.

Section Resolver.

Variable host : Host.

(** [generateDescription] reads the clock once and describes the date by
    the floored differences, as the specification words it. *)
Lemma generateDescription_run (e : jsstring) (d : Z) (w : World) :
  generateDescription host e d w =
  (Spec.description host e d (clock w 0%nat),
   {| clock := fun n => clock w (S n); chronoCalls := chronoCalls w |}).
Proof.
  unfold generateDescription, Spec.description, bind. rewrite newDate_run.
  cbv zeta. rewrite floored_days, floored_hours.
  change (1000 * 60) with 60000. unfold formatTime, formatDate, Spec.counted, ret.
  destruct (_ <? 60);
    [destruct (_ =? 1); rewrite <- ?app_assoc; reflexivity|].
  destruct (_ <? 24);
    [destruct (_ =? 1); rewrite <- ?app_assoc; reflexivity|].
  destruct (_ <? 7); [|reflexivity].
  destruct (_ =? 1); rewrite <- ?app_assoc; reflexivity.
Qed.

(** One run of [parseTimeExpression], outcome and final world. *)
Lemma parseTimeExpression_run (e : jsstring) (w : World) :
  parseTimeExpression host e w =
  if negb (truthy (trim e)) then (None, w)
  else
    let w1 := {| clock := fun n => clock w (S n);
                 chronoCalls := trim e :: chronoCalls w |} in
    let w2 := {| clock := fun n => clock w (S (S n));
                 chronoCalls := trim e :: chronoCalls w |} in
    let w3 := {| clock := fun n => clock w (S (S (S n)));
                 chronoCalls := trim e :: chronoCalls w |} in
    let accept := fun d =>
      (Some {| timestamp := d / 1000;
               description := Spec.description host e d (nowOfDescription w);
               date := d |}, w3) in
    match grammar host (trim e) (nowOfChrono w) with
    | [] => (None, w1)
    | result :: _ =>
        if chrono.date result >? nowOfParse w then
          match ES.setDate (LocalTZA host) (chrono.date result)
                  (ES.getDate (LocalTZA host) (chrono.date result) - 1) with
          | Some dayBefore =>
              if dayBefore <=? nowOfParse w then accept dayBefore else (None, w2)
          | None => (None, w2)
          end
        else accept (chrono.date result)
    end.
Proof.
  unfold parseTimeExpression, nowOfChrono, nowOfParse, nowOfDescription.
  destruct (negb (truthy (trim e))); [reflexivity|].
  unfold bind, chrono_parse, bind, newDate, ret. cbn [clock chronoCalls].
  destruct (grammar host (trim e) (clock w 0%nat)) as [|result rest];
    [reflexivity|].
  cbn [clock chronoCalls].
  destruct (chrono.date result >? clock w 1%nat).
  - destruct (ES.setDate _ _ _) as [dayBefore|]; [|reflexivity].
    destruct (dayBefore <=? clock w 1%nat); [|reflexivity].
    rewrite generateDescription_run. reflexivity.
  - rewrite generateDescription_run. reflexivity.
Qed.

(** What a successful resolution is made of. *)
Lemma parseTimeExpression_some (e : jsstring) (w : World) (pt : ParsedTime) :
  valueOf (parseTimeExpression host e) w = Some pt ->
  truthy (trim e) = true /\
  (exists result rest,
      grammar host (trim e) (nowOfChrono w) = result :: rest /\
      (chrono.date result <= nowOfParse w /\ date pt = chrono.date result \/
       nowOfParse w < chrono.date result /\
       ES.setDate (LocalTZA host) (chrono.date result)
         (ES.getDate (LocalTZA host) (chrono.date result) - 1)
       = Some (date pt))) /\
  date pt <= nowOfParse w /\
  timestamp pt = date pt / 1000 /\
  description pt = Spec.description host e (date pt) (nowOfDescription w).
Proof.
  unfold valueOf. rewrite parseTimeExpression_run.
  destruct (truthy (trim e)); [|discriminate]. cbn [negb]. cbv zeta.
  destruct (grammar host (trim e) (nowOfChrono w)) as [|result rest];
    [discriminate|].
  destruct (chrono.date result >? nowOfParse w) eqn:Hfuture;
    rewrite Z.gtb_ltb in Hfuture.
  - apply Z.ltb_lt in Hfuture.
    destruct (ES.setDate _ _ _) as [dayBefore|] eqn:Hset; [|discriminate].
    destruct (dayBefore <=? nowOfParse w) eqn:Hpast; [|discriminate].
    apply Z.leb_le in Hpast.
    simpl. intros [= <-]. simpl. repeat split; eauto 6.
  - apply Z.ltb_ge in Hfuture.
    simpl. intros [= <-]. simpl. repeat split; eauto 6.
Qed.

End Resolver.

(** ** The resolved instant *)

(** C1 (past-only invariant).  Whenever [parseTimeExpression] returns a
    [ParsedTime], its [date] is at or before [now], the instant
    [parseTimeExpression] read from the clock to judge "past": the result is
    never strictly after it. *)
Theorem C1_past_only_invariant
  (host : Host) (e : jsstring) (w : World) (pt : ParsedTime) :
  valueOf (parseTimeExpression host e) w = Some pt ->
  date pt <= nowOfParse w.
Proof.
  intros H. apply parseTimeExpression_some in H. tauto.
Qed.

Lemma C1_past_only_invariant_witness :
  date {| timestamp := 1718445600; description := js "2 hours ago";
          date := 1718445600000 |} <= nowOfParse (frozen Sample.noon).
Proof.
  apply (C1_past_only_invariant (Sample.host Sample.utc) (js "2 hours ago")).
  vm_compute. reflexivity.
Defined.






(** ** The description *)

(** At exactly 24 hours the code answers "yesterday at ...", which is not
    the day-count form that C3 names. *)
Lemma C3_exactly_24_hours_is_yesterday :
  valueOf (generateDescription (Sample.host Sample.utc) (js "1 day ago")
             (Sample.noon - 24 * ES.msPerHour))
          (frozen Sample.noon)
  = js "yesterday at 12:00 PM" /\
  ~ Spec.oneDayCountForm
      (valueOf (generateDescription (Sample.host Sample.utc) (js "1 day ago")
                  (Sample.noon - 24 * ES.msPerHour))
               (frozen Sample.noon)).
Proof.
  split; [vm_compute; reflexivity|].
  intros [rest Hrest]. vm_compute in Hrest. discriminate Hrest.
Qed.

(** C3, amended (tie-break rule).  The thresholds are strict: a difference
    of exactly 60 minutes is "1 hour ago" and one millisecond less is still
    counted in minutes; exactly 24 hours is "yesterday at {localTime}", the
    days branch with a day count of 1, and one millisecond less is still
    counted in hours; exactly 7 days is the expression verbatim with the
    formatted calendar date, and one millisecond less is still counted in
    days. *)
Theorem C3_tie_breaks (host : Host) (e : jsstring) (w : World) :
  let now := clock w 0%nat in
  let describe := fun d => valueOf (generateDescription host e d) w in
  describe (now - 60 * ES.msPerMinute) = js "1 hour ago" /\
  describe (now - 60 * ES.msPerMinute + 1) = js "59 minutes ago" /\
  describe (now - 24 * ES.msPerHour)
    = js "yesterday at " ++ formatTime host (now - 24 * ES.msPerHour) /\
  describe (now - 24 * ES.msPerHour + 1) = js "23 hours ago" /\
  describe (now - 7 * ES.msPerDay)
    = e ++ js " (" ++ formatDate host (now - 7 * ES.msPerDay) ++ js ")" /\
  describe (now - 7 * ES.msPerDay + 1)
    = js "6 days ago at " ++ formatTime host (now - 7 * ES.msPerDay + 1).
Proof.
  intros now describe. unfold describe, valueOf.
  rewrite !generateDescription_run. cbn [fst]. fold now.
  unfold Spec.description.
  replace (now - (now - 60 * ES.msPerMinute)) with 3600000
    by (unfold ES.msPerMinute; lia).
  replace (now - (now - 60 * ES.msPerMinute + 1)) with 3599999
    by (unfold ES.msPerMinute; lia).
  replace (now - (now - 24 * ES.msPerHour)) with 86400000
    by (unfold ES.msPerHour; lia).
  replace (now - (now - 24 * ES.msPerHour + 1)) with 86399999
    by (unfold ES.msPerHour; lia).
  replace (now - (now - 7 * ES.msPerDay)) with 604800000
    by (unfold ES.msPerDay; lia).
  replace (now - (now - 7 * ES.msPerDay + 1)) with 604799999
    by (unfold ES.msPerDay; lia).
  repeat split.
Qed.

(** C4 (branch selection).  The description of an accepted instant is the
    one the specification gives from the floored differences between the
    instant and the [now] of [generateDescription]: minutes below 60, else
    hours below 24, else "yesterday" or a day count below 7 days, else the
    original expression with the formatted calendar date. *)
Theorem C4_description_branches
  (host : Host) (e : jsstring) (w : World) (pt : ParsedTime) :
  valueOf (parseTimeExpression host e) w = Some pt ->
  description pt = Spec.description host e (date pt) (nowOfDescription w).
Proof.
  intros H. apply parseTimeExpression_some in H. tauto.
Qed.

Lemma C4_description_branches_witness :
  description {| timestamp := 1716638400;
                 description := js "3 weeks ago (Sat, May 25, 12:00 PM)";
                 date := 1716638400000 |}
  = Spec.description (Sample.host Sample.utc) (js "3 weeks ago")
      1716638400000 (nowOfDescription (frozen Sample.noon)).
Proof.
  apply (C4_description_branches (Sample.host Sample.utc) (js "3 weeks ago")
           (frozen Sample.noon)).
  vm_compute. reflexivity.
Defined.

(** Every branch of [generateDescription] produces some text. *)
Lemma description_nonempty (host : Host) (e : jsstring) (d now : Z) :
  Spec.description host e d now <> [].
Proof.
  assert (Hne : forall a b c : jsstring, b <> [] -> a ++ b ++ c <> []).
  { intros a b c Hb H. apply app_eq_nil in H as [_ H].
    apply app_eq_nil in H as [H _]. contradiction. }
  unfold Spec.description, Spec.counted. cbv zeta.
  repeat match goal with |- context [if ?b then _ else _] => destruct b end;
    rewrite <- ?app_assoc;
    try (apply Hne; discriminate);
    try discriminate.
Qed.

(** C9 (non-empty description).  Whenever [parseTimeExpression] returns a
    [ParsedTime], its [description] is not the empty string. *)
Theorem C9_description_nonempty
  (host : Host) (e : jsstring) (w : World) (pt : ParsedTime) :
  valueOf (parseTimeExpression host e) w = Some pt ->
  description pt <> [].
Proof.
  intros H. apply parseTimeExpression_some in H.
  destruct H as (_ & _ & _ & _ & ->). apply description_nonempty.
Qed.

Lemma C9_description_nonempty_witness :
  description {| timestamp := 1718445600; description := js "2 hours ago";
                 date := 1718445600000 |} <> [].
Proof.
  apply (C9_description_nonempty (Sample.host Sample.pacific2024)
           (js "2 hours ago") (frozen Sample.noon)).
  vm_compute. reflexivity.
Defined.

(** ** Timestamps *)

Lemma floor_1000 (t : Z) : 1000 * (t / 1000) <= t < 1000 * (t / 1000) + 1000.
Proof. pose proof (Z.mod_pos_bound t 1000). pose proof (Z.div_mod t 1000). lia. Qed.

(** C5 (truncation to whole seconds).  The [timestamp] of a resolution is
    the floor of its [date] in milliseconds divided by 1000: the last whole
    second at or before the instant, never the next one.
    [getCurrentTimestamp] floors the reading of the clock the same way. *)
Theorem C5_truncation (host : Host) (e : jsstring) (w : World) :
  (forall pt, valueOf (parseTimeExpression host e) w = Some pt ->
     timestamp pt = date pt / 1000 /\
     1000 * timestamp pt <= date pt < 1000 * timestamp pt + 1000) /\
  valueOf getCurrentTimestamp w = clock w 0%nat / 1000 /\
  1000 * valueOf getCurrentTimestamp w <= clock w 0%nat
    < 1000 * valueOf getCurrentTimestamp w + 1000.
Proof.
  split.
  - intros pt H. apply parseTimeExpression_some in H.
    destruct H as (_ & _ & _ & -> & _). split; [reflexivity | apply floor_1000].
  - change (valueOf getCurrentTimestamp w) with (clock w 0%nat / 1000).
    split; [reflexivity | apply floor_1000].
Qed.

Lemma C5_truncation_witness :
  timestamp {| timestamp := 1718384400; description := js "19 hours ago";
               date := 1718384400999 |} = 1718384400999 / 1000.
Proof.
  apply (C5_truncation (Sample.host Sample.utc) (js "in 5 hours")
           (frozen (Sample.noon + 999))).
  vm_compute. reflexivity.
Defined.

(** ** Blank input and white space *)

(** C6 (empty-input rejection).  For an expression that is empty or all
    white space [parseTimeExpression] returns null and leaves the world as it
    found it: no call to chrono is recorded and the clock is not read. *)
Theorem C6_blank_rejected (host : Host) (e : jsstring) (w : World) :
  forallb isWhiteSpace e = true ->
  valueOf (parseTimeExpression host e) w = None /\
  worldAfter (parseTimeExpression host e) w = w /\
  chronoCalls (worldAfter (parseTimeExpression host e) w) = chronoCalls w.
Proof.
  intros Hblank. apply trim_blank_iff in Hblank.
  unfold valueOf, worldAfter. rewrite parseTimeExpression_run, Hblank.
  repeat split.
Qed.

Lemma C6_blank_rejected_witness :
  valueOf (parseTimeExpression (Sample.host Sample.utc) (js "   "))
          (frozen Sample.noon) = None.
Proof.
  apply (C6_blank_rejected (Sample.host Sample.utc) (js "   ")
           (frozen Sample.noon)).
  reflexivity.
Defined.

(** Any other expression does reach chrono, with the trimmed text. *)
Lemma chrono_called_once (host : Host) (e : jsstring) (w : World) :
  truthy (trim e) = true ->
  chronoCalls (worldAfter (parseTimeExpression host e) w)
  = trim e :: chronoCalls w.
Proof.
  intros Hne. unfold worldAfter. rewrite parseTimeExpression_run, Hne.
  cbn [negb]. cbv zeta.
  destruct (grammar host (trim e) (nowOfChrono w)) as [|result rest];
    [reflexivity|].
  destruct (chrono.date result >? nowOfParse w); [|reflexivity].
  destruct (ES.setDate _ _ _) as [dayBefore|]; [|reflexivity].
  destruct (dayBefore <=? nowOfParse w); reflexivity.
Qed.

(** C7 (resolvability check).  [validateTimeExpression] answers true exactly
    when [parseTimeExpression] on the same expression, in the same world,
    does not return null; it leaves the world as that call leaves it. *)
Theorem C7_validate_iff_resolves (host : Host) (e : jsstring) (w : World) :
  (valueOf (validateTimeExpression host e) w = true <->
   valueOf (parseTimeExpression host e) w <> None) /\
  worldAfter (validateTimeExpression host e) w
  = worldAfter (parseTimeExpression host e) w.
Proof.
  unfold validateTimeExpression, valueOf, worldAfter, bind, ret.
  destruct (parseTimeExpression host e w) as [[pt|] w']; simpl.
  - split; [|reflexivity]. split; [discriminate | reflexivity].
  - split; [|reflexivity]. split; [discriminate | intros H; now elim H].
Qed.

(** C8 (examples catalog).  [getExamples] is the fixed sequence of these ten
    expressions, in this order. *)
Theorem C8_examples_catalog :
  getExamples =
  map js [ "2 hours ago"; "30 minutes ago"; "1 day ago"; "yesterday at 3pm";
           "yesterday 15:30"; "last friday at 9am"; "tuesday at noon";
           "3 days ago at 2pm"; "this morning at 8am";
           "last night at 10pm" ]%string /\
  List.length getExamples = 10%nat.
Proof. split; reflexivity. Qed.

Lemma verbatim_branch (host : Host) (e : jsstring) (d now : Z) :
  7 <= (now - d) / 86400000 ->
  Spec.description host e d now
  = e ++ js " (" ++ toLocaleDateString host d ++ js ")".
Proof.
  intros H. unfold Spec.description. cbv zeta.
  assert (Hm : ((now - d) / 60000 <? 60) = false)
    by (apply Z.ltb_ge; Z.to_euclidean_division_equations; lia).
  assert (Hh : ((now - d) / 3600000 <? 24) = false)
    by (apply Z.ltb_ge; Z.to_euclidean_division_equations; lia).
  assert (Hd : ((now - d) / 86400000 <? 7) = false) by (apply Z.ltb_ge; lia).
  now rewrite Hm, Hh, Hd.
Qed.

(** C10 (white space around the expression).  [parseTimeExpression] on an
    expression and on its trimmed form agree on whether they resolve and on
    the [timestamp] and [date] they resolve to, since only the trimmed text
    reaches the grammar.  The description of an instant seven or more days
    back starts with the expression as it was given, untrimmed; so the two
    descriptions can differ by leading or trailing white space. *)
Theorem C10_trim_insensitive :
  (forall (host : Host) (e : jsstring) (w : World),
      option_map (fun pt => (timestamp pt, date pt))
        (valueOf (parseTimeExpression host e) w)
      = option_map (fun pt => (timestamp pt, date pt))
          (valueOf (parseTimeExpression host (trim e)) w) /\
      (forall pt,
          valueOf (parseTimeExpression host e) w = Some pt ->
          7 <= (nowOfDescription w - date pt) / 86400000 ->
          description pt
          = e ++ js " (" ++ formatDate host (date pt) ++ js ")")) /\
  (exists pt pt',
      valueOf (parseTimeExpression (Sample.host Sample.utc)
                 (js "  3 weeks ago ")) (frozen Sample.noon) = Some pt /\
      valueOf (parseTimeExpression (Sample.host Sample.utc)
                 (trim (js "  3 weeks ago "))) (frozen Sample.noon) = Some pt' /\
      description pt = js "  3 weeks ago  (Sat, May 25, 12:00 PM)" /\
      description pt' = js "3 weeks ago (Sat, May 25, 12:00 PM)").
Proof.
  split.
  - intros host e w. split.
    + unfold valueOf. rewrite !parseTimeExpression_run, trim_idem.
      destruct (negb (truthy (trim e))); [reflexivity|]. cbv zeta.
      destruct (grammar host (trim e) (nowOfChrono w)) as [|result rest];
        [reflexivity|].
      destruct (chrono.date result >? nowOfParse w); [|reflexivity].
      destruct (ES.setDate _ _ _) as [dayBefore|]; [|reflexivity].
      destruct (dayBefore <=? nowOfParse w); reflexivity.
    + intros pt H Hold. apply parseTimeExpression_some in H.
      destruct H as (_ & _ & _ & _ & ->). now apply verbatim_branch.
  - eexists. eexists. repeat split; vm_compute; reflexivity.
Qed.

Lemma C10_trim_insensitive_witness :
  description {| timestamp := 1716638400;
                 description := js " 3 weeks ago (Sat, May 25, 12:00 PM)";
                 date := 1716638400000 |}
  = js " 3 weeks ago" ++ js " ("
      ++ formatDate (Sample.host Sample.utc) 1716638400000 ++ js ")".
Proof.
  destruct C10_trim_insensitive as [Hall _].
  destruct (Hall (Sample.host Sample.utc) (js " 3 weeks ago")
              (frozen Sample.noon)) as [_ Hecho].
  apply (Hecho {| timestamp := 1716638400;
                  description := js " 3 weeks ago (Sat, May 25, 12:00 PM)";
                  date := 1716638400000 |}).
  - vm_compute. reflexivity.
  - vm_compute. discriminate.
Defined.


(* ================================================================= *)
(** * Further properties of the resolver *)

(** X1.  The timestamp of a resolution is never a later second than the
    one [getCurrentTimestamp] would give from the instant [now] of the
    resolution: playback is never asked to start in the future. *)
Theorem timestamp_not_after_current
  (host : Host) (e : jsstring) (w : World) (pt : ParsedTime) :
  valueOf (parseTimeExpression host e) w = Some pt ->
  timestamp pt <= nowOfParse w / 1000.
Proof.
  intros H. apply parseTimeExpression_some in H.
  destruct H as (_ & _ & Hpast & -> & _).
  apply Z.div_le_mono; [reflexivity | exact Hpast].
Qed.

Lemma timestamp_not_after_current_witness :
  timestamp {| timestamp := 1718384400; description := js "19 hours ago";
               date := 1718384400999 |}
  <= nowOfParse (frozen (Sample.noon + 999)) / 1000.
Proof.
  apply (timestamp_not_after_current (Sample.host Sample.utc)
           (js "in 5 hours") (frozen (Sample.noon + 999))).
  vm_compute. reflexivity.
Defined.

(** X2.  A first candidate that is at or before [now] is the resolved
    instant as it is: no shift, whatever the time zone. *)
Theorem past_candidate_unchanged
  (host : Host) (e : jsstring) (w : World)
  (result : chrono.ParsedResult) (rest : list chrono.ParsedResult) :
  truthy (trim e) = true ->
  grammar host (trim e) (nowOfChrono w) = result :: rest ->
  chrono.date result <= nowOfParse w ->
  valueOf (parseTimeExpression host e) w =
  Some {| timestamp := chrono.date result / 1000;
          description :=
            Spec.description host e (chrono.date result) (nowOfDescription w);
          date := chrono.date result |}.
Proof.
  intros Hne Hgr Hpast. unfold valueOf.
  rewrite parseTimeExpression_run, Hne, Hgr. cbn [negb]. cbv zeta.
  rewrite Z.gtb_ltb. apply Z.ltb_ge in Hpast. now rewrite Hpast.
Qed.

Lemma past_candidate_unchanged_witness :
  valueOf (parseTimeExpression (Sample.host Sample.pacific2024)
             (js "3 days ago")) (frozen Sample.noon) =
  Some {| timestamp := (Sample.noon - 3 * ES.msPerDay) / 1000;
          description :=
            Spec.description (Sample.host Sample.pacific2024) (js "3 days ago")
              (Sample.noon - 3 * ES.msPerDay)
              (nowOfDescription (frozen Sample.noon));
          date := Sample.noon - 3 * ES.msPerDay |}.
Proof.
  apply (past_candidate_unchanged (Sample.host Sample.pacific2024)
           (js "3 days ago") (frozen Sample.noon)
           {| chrono.index := 0; chrono.text := js "3 days ago";
              chrono.date := Sample.noon - 3 * ES.msPerDay |} []).
  - reflexivity.
  - reflexivity.
  - discriminate.
Defined.

(** X3.  When the grammar finds nothing in a non-blank expression the
    result is null; chrono has been called, the clock has been read once (by
    chrono), and nothing else was done. *)
Theorem no_candidate_is_null (host : Host) (e : jsstring) (w : World) :
  truthy (trim e) = true ->
  grammar host (trim e) (nowOfChrono w) = [] ->
  valueOf (parseTimeExpression host e) w = None /\
  worldAfter (parseTimeExpression host e) w =
  {| clock := fun n => clock w (S n); chronoCalls := trim e :: chronoCalls w |}.
Proof.
  intros Hne Hgr. unfold valueOf, worldAfter.
  rewrite parseTimeExpression_run, Hne, Hgr. split; reflexivity.
Qed.

Lemma no_candidate_is_null_witness :
  valueOf (parseTimeExpression (Sample.host Sample.utc) (js "whenever"))
          (frozen Sample.noon) = None.
Proof.
  apply (no_candidate_is_null (Sample.host Sample.utc) (js "whenever")
           (frozen Sample.noon)); reflexivity.
Defined.

(** X4.  chrono is handed the trimmed text, once, for every expression
    that is not blank, and is not called at all for a blank one. *)
Theorem chrono_sees_trimmed_text (host : Host) (e : jsstring) (w : World) :
  chronoCalls (worldAfter (parseTimeExpression host e) w) =
  if truthy (trim e) then trim e :: chronoCalls w else chronoCalls w.
Proof.
  destruct (truthy (trim e)) eqn:Hne.
  - now apply chrono_called_once.
  - unfold worldAfter. now rewrite parseTimeExpression_run, Hne.
Qed.

Section FixedOffset.

Variable host : Host.
Variable offset : Z.
Hypothesis fixed : forall t isUTC, LocalTZA host t isUTC = offset.

(** X5.  In a time zone with a fixed offset the rescue is a shift of exactly
    24 hours: a first candidate in the future resolves, to the instant 24
    hours before it, exactly when it is at most 24 hours ahead of [now]. *)
Theorem rescue_window_fixed_offset
  (e : jsstring) (w : World)
  (result : chrono.ParsedResult) (rest : list chrono.ParsedResult) :
  truthy (trim e) = true ->
  grammar host (trim e) (nowOfChrono w) = result :: rest ->
  nowOfParse w < chrono.date result ->
  Z.abs (chrono.date result - ES.msPerDay) <= 8640000000000000 ->
  valueOf (parseTimeExpression host e) w =
  if chrono.date result <=? nowOfParse w + ES.msPerDay then
    Some {| timestamp := (chrono.date result - ES.msPerDay) / 1000;
            description :=
              Spec.description host e (chrono.date result - ES.msPerDay)
                (nowOfDescription w);
            date := chrono.date result - ES.msPerDay |}
  else None.
Proof.
  intros Hne Hgr Hfuture Hvalid. unfold valueOf.
  rewrite parseTimeExpression_run, Hne, Hgr. cbn [negb]. cbv zeta.
  apply Z.gtb_lt in Hfuture. rewrite Hfuture.
  rewrite (setDate_getDate_pred_fixed (LocalTZA host) offset _ fixed).
  unfold ES.TimeClip. apply Z.leb_le in Hvalid. rewrite Hvalid.
  destruct (chrono.date result <=? nowOfParse w + ES.msPerDay) eqn:Hwin.
  - apply Z.leb_le in Hwin.
    assert (Hle : (chrono.date result - ES.msPerDay <=? nowOfParse w) = true)
      by (apply Z.leb_le; lia).
    now rewrite Hle.
  - apply Z.leb_gt in Hwin.
    assert (Hgt : (chrono.date result - ES.msPerDay <=? nowOfParse w) = false)
      by (apply Z.leb_gt; lia).
    now rewrite Hgt.
Qed.

(** X6.  In a time zone with a fixed offset a rescued instant is exactly 24
    hours before the candidate.  So as long as the clock has not passed the
    candidate when the description is written, the instant is less than 24
    hours before that reading of the clock, and the description counts
    minutes or hours and never uses the day wordings. *)
Theorem rescued_described_in_minutes_or_hours
  (e : jsstring) (w : World) (pt : ParsedTime)
  (result : chrono.ParsedResult) (rest : list chrono.ParsedResult) :
  grammar host (trim e) (nowOfChrono w) = result :: rest ->
  nowOfParse w < chrono.date result ->
  nowOfDescription w < chrono.date result ->
  valueOf (parseTimeExpression host e) w = Some pt ->
  let deltaMinutes := (nowOfDescription w - date pt) / 60000 in
  let deltaHours := (nowOfDescription w - date pt) / 3600000 in
  date pt = chrono.date result - ES.msPerDay /\
  deltaHours < 24 /\
  description pt =
  if deltaMinutes <? 60 then Spec.counted deltaMinutes "minute" ++ js " ago"
  else Spec.counted deltaHours "hour" ++ js " ago".
Proof.
  intros Hgr Hfuture Hclock H deltaMinutes deltaHours.
  apply parseTimeExpression_some in H.
  destruct H as (_ & (result' & rest' & Hgr' & Hcase) & _ & _ & Hdescr).
  rewrite Hgr in Hgr'. injection Hgr' as <- <-.
  destruct Hcase as [[Hpast _] | [_ Hset]]; [lia|].
  rewrite (setDate_getDate_pred_fixed (LocalTZA host) offset _ fixed) in Hset.
  unfold ES.TimeClip in Hset.
  destruct (Z.abs _ <=? _); [|discriminate]. injection Hset as Hdate.
  assert (Hh : deltaHours < 24).
  { unfold deltaHours. rewrite <- Hdate. unfold ES.msPerDay.
    apply Z.div_lt_upper_bound; lia. }
  split; [now symmetry|]. split; [exact Hh|].
  rewrite Hdescr. unfold Spec.description. cbv zeta.
  fold deltaMinutes. fold deltaHours.
  destruct (deltaMinutes <? 60); [reflexivity|].
  apply Z.ltb_lt in Hh. now rewrite Hh.
Qed.

End FixedOffset.

Lemma rescue_window_fixed_offset_witness :
  valueOf (parseTimeExpression (Sample.host Sample.utc) (js "tomorrow"))
          (frozen Sample.noon)
  = Some {| timestamp := Sample.noon / 1000;
            description := js "0 minutes ago";
            date := Sample.noon |}.
Proof.
  apply (rescue_window_fixed_offset (Sample.host Sample.utc) 0
           (fun _ _ => eq_refl) (js "tomorrow") (frozen Sample.noon)
           {| chrono.index := 0; chrono.text := js "tomorrow";
              chrono.date := Sample.noon + ES.msPerDay |} []).
  - reflexivity.
  - reflexivity.
  - reflexivity.
  - discriminate.
Defined.

Lemma rescued_described_in_minutes_or_hours_witness :
  description {| timestamp := 1718384400; description := js "19 hours ago";
                 date := 1718384400000 |} = js "19 hours ago".
Proof.
  apply (rescued_described_in_minutes_or_hours (Sample.host Sample.utc) 0
           (fun _ _ => eq_refl) (js "in 5 hours") (frozen Sample.noon)
           {| timestamp := 1718384400; description := js "19 hours ago";
              date := 1718384400000 |}
           {| chrono.index := 0; chrono.text := js "in 5 hours";
              chrono.date := Sample.noon + 5 * ES.msPerHour |} []).
  - reflexivity.
  - reflexivity.
  - reflexivity.
  - vm_compute. reflexivity.
Defined.

(** X7.  Between 24 and 48 hours back the description says "yesterday",
    whatever the calendar day; from 48 hours up to 7 days it counts 2 to 6
    days, always in the plural: "1 day ago at" is never produced. *)
Theorem days_wording (host : Host) (e : jsstring) (d : Z) (w : World) :
  24 * ES.msPerHour <= clock w 0%nat - d < 7 * ES.msPerDay ->
  let days := (clock w 0%nat - d) / ES.msPerDay in
  1 <= days <= 6 /\
  valueOf (generateDescription host e d) w =
  if clock w 0%nat - d <? 48 * ES.msPerHour
  then js "yesterday at " ++ formatTime host d
  else NumberToString days ++ js " days ago at " ++ formatTime host d.
Proof.
  intros Hrange days. unfold valueOf. rewrite generateDescription_run.
  cbn [fst]. unfold Spec.description, Spec.counted, formatTime. cbv zeta.
  unfold ES.msPerHour, ES.msPerDay in *. fold days.
  assert (Hd : 1 <= days <= 6).
  { unfold days. split; [apply Z.div_le_lower_bound | apply Z.lt_succ_r,
      Z.div_lt_upper_bound]; lia. }
  split; [exact Hd|].
  assert (Hm : ((clock w 0%nat - d) / 60000 <? 60) = false)
    by (apply Z.ltb_ge, Z.div_le_lower_bound; lia).
  assert (Hh : ((clock w 0%nat - d) / 3600000 <? 24) = false)
    by (apply Z.ltb_ge, Z.div_le_lower_bound; lia).
  assert (H7 : (days <? 7) = true) by (apply Z.ltb_lt; lia).
  rewrite Hm, Hh, H7.
  destruct (clock w 0%nat - d <? 48 * 3600000) eqn:H48.
  - apply Z.ltb_lt in H48.
    assert (H1 : days = 1).
    { unfold days. apply Z.le_antisymm; [|lia].
      apply Z.lt_succ_r, Z.div_lt_upper_bound; lia. }
    now rewrite H1.
  - apply Z.ltb_ge in H48.
    assert (H2 : 2 <= days)
      by (unfold days; apply Z.div_le_lower_bound; lia).
    destruct (days =? 1) eqn:H1; [apply Z.eqb_eq in H1; lia|].
    rewrite <- !app_assoc. reflexivity.
Qed.

Lemma days_wording_witness :
  valueOf (generateDescription (Sample.host Sample.utc) (js "friday")
             (Sample.noon - 47 * ES.msPerHour)) (frozen Sample.noon)
  = js "yesterday at " ++ formatTime (Sample.host Sample.utc)
                            (Sample.noon - 47 * ES.msPerHour).
Proof.
  apply (days_wording (Sample.host Sample.utc) (js "friday")
           (Sample.noon - 47 * ES.msPerHour) (frozen Sample.noon)).
  split; [discriminate | reflexivity].
Defined.

(** X8.  [formatTimestamp] of a resolution's timestamp formats the start of
    the second the resolved instant lies in: a valid date, at most 999 ms
    before the instant and never after it. *)
Theorem formatTimestamp_of_resolution
  (toLocaleString : option Z -> jsstring)
  (host : Host) (e : jsstring) (w : World) (pt : ParsedTime) :
  valueOf (parseTimeExpression host e) w = Some pt ->
  Z.abs (date pt) <= 8640000000000000 ->
  formatTimestamp toLocaleString (timestamp pt)
  = toLocaleString (Some (date pt - date pt mod 1000)) /\
  date pt - 999 <= date pt - date pt mod 1000 <= date pt.
Proof.
  intros H Hvalid. apply parseTimeExpression_some in H.
  destruct H as (_ & _ & _ & -> & _).
  pose proof (Z.mod_pos_bound (date pt) 1000 eq_refl) as Hmod.
  pose proof (Z.div_mod (date pt) 1000) as Hdiv.
  unfold formatTimestamp. cbv zeta.
  replace (date pt / 1000 * 1000) with (date pt - date pt mod 1000) by lia.
  split; [|lia]. unfold ES.TimeClip.
  assert (Hin : (Z.abs (date pt - date pt mod 1000) <=? 8640000000000000) = true).
  { apply Z.leb_le.
    assert (Hm : (date pt - date pt mod 1000) mod 1000 = 0).
    { replace (date pt - date pt mod 1000) with (date pt / 1000 * 1000) by lia.
      apply Z.mod_mul. discriminate. }
    Z.to_euclidean_division_equations. lia. }
  now rewrite Hin.
Qed.

Lemma formatTimestamp_of_resolution_witness :
  formatTimestamp (fun d => match d with Some t => NumberToString t | None => js "Invalid Date" end)
    (timestamp {| timestamp := 1718384400; description := js "19 hours ago";
                  date := 1718384400999 |})
  = js "1718384400000".
Proof.
  apply (formatTimestamp_of_resolution
           (fun d => match d with Some t => NumberToString t | None => js "Invalid Date" end)
           (Sample.host Sample.utc) (js "in 5 hours")
           (frozen (Sample.noon + 999))).
  - vm_compute. reflexivity.
  - discriminate.
Defined.

(* ================================================================= *)
(** * The channel browser *)

(** ** The string and array built-ins *)

Lemma startsWith_app (s t : jsstring) :
  Builtins.startsWith s t = true <-> exists r, s = t ++ r.
Proof.
  revert s. induction t as [|c t IH]; intros s; simpl.
  - split; [eauto | reflexivity].
  - destruct s as [|d s].
    + split; [discriminate | intros [r Hr]; discriminate].
    + rewrite andb_true_iff, N.eqb_eq, IH. split.
      * intros [-> [r ->]]. eauto.
      * intros [r [= -> ->]]. eauto.
Qed.

(** [includes] finds exactly the strings that occur somewhere inside. *)
Lemma includes_app (s t : jsstring) :
  Builtins.includes s t = true <-> exists a b, s = a ++ t ++ b.
Proof.
  induction s as [|d s IH]; simpl.
  - destruct (Builtins.startsWith [] t) eqn:Hs.
    + apply startsWith_app in Hs as [r Hr]. split; [|reflexivity].
      intros _. exists [], r. exact Hr.
    + split; [discriminate|]. intros (a & b & Hab).
      destruct a; [|discriminate].
      assert (Builtins.startsWith [] t = true)
        by (apply startsWith_app; eauto).
      congruence.
  - destruct (Builtins.startsWith (d :: s) t) eqn:Hs.
    + apply startsWith_app in Hs as [r Hr]. split; [|reflexivity].
      intros _. exists [], r. exact Hr.
    + rewrite IH. split.
      * intros (a & b & ->). exists (d :: a), b. reflexivity.
      * intros (a & b & Hab). destruct a as [|d' a].
        -- assert (Builtins.startsWith (d :: s) t = true)
             by (apply startsWith_app; eauto).
           congruence.
        -- injection Hab as -> ->. eauto.
Qed.

Lemma includes_trans (s t u : jsstring) :
  Builtins.includes s t = true -> Builtins.includes t u = true ->
  Builtins.includes s u = true.
Proof.
  rewrite !includes_app. intros (a & b & ->) (c & d & ->).
  exists (a ++ c), (d ++ b). now rewrite <- !app_assoc.
Qed.

Lemma slice_drop_last (v : jsstring) (c : N) :
  Builtins.slice (v ++ [c]) 0 (-1) = v.
Proof.
  unfold Builtins.slice.
  assert (Hlen : Z.of_nat (List.length (v ++ [c])) = Z.of_nat (List.length v) + 1)
    by (rewrite length_app; simpl; lia).
  rewrite Hlen. cbv zeta.
  change (0 <? 0) with false. change (-1 <? 0) with true. cbv iota.
  rewrite Z.min_l by lia. rewrite Z.max_l by lia.
  change (Z.to_nat 0) with 0%nat. cbn [skipn].
  replace (Z.to_nat (Z.of_nat (List.length v) + 1 + -1 - 0))
    with (List.length v) by lia.
  rewrite firstn_app, firstn_all, Nat.sub_diag. simpl. apply app_nil_r.
Qed.

Lemma padStart_length (s : jsstring) (n : nat) (c : N) :
  List.length (Builtins.padStart s n [c]) = Nat.max n (List.length s).
Proof.
  unfold Builtins.padStart. cbv zeta.
  assert (Hrep : forall k, List.concat (repeat [c] k) = repeat c k).
  { induction k; simpl; [reflexivity | now rewrite IHk]. }
  rewrite Hrep, firstn_all2 by (rewrite repeat_length; lia).
  rewrite length_app, repeat_length. lia.
Qed.

Lemma insertChannel_perm (x : Types.Channel) (l : list Types.Channel) :
  Permutation (Builtins.insertSorted Types.Channel ZappingUI.byNumber x l)
              (x :: l).
Proof.
  induction l as [|y r IH]; simpl; [reflexivity|].
  destruct (ZappingUI.byNumber x y <=? 0); [reflexivity|].
  rewrite IH. apply perm_swap.
Qed.

Lemma sortChannels_perm (l : list Types.Channel) :
  Permutation (Builtins.sort Types.Channel ZappingUI.byNumber l) l.
Proof.
  induction l as [|x r IH]; simpl; [reflexivity|].
  rewrite insertChannel_perm. now constructor.
Qed.

Lemma insertChannel_sorted (x : Types.Channel) (l : list Types.Channel) :
  StronglySorted ZappingUI.numberLe l ->
  StronglySorted ZappingUI.numberLe
    (Builtins.insertSorted Types.Channel ZappingUI.byNumber x l).
Proof.
  induction 1 as [|y r Hr IH Hy]; simpl.
  - repeat constructor.
  - unfold ZappingUI.byNumber at 1.
    destruct (Types.number x - Types.number y <=? 0) eqn:Hc.
    + apply Z.leb_le in Hc. constructor; [now constructor|].
      constructor; [unfold ZappingUI.numberLe; lia|].
      eapply Forall_impl; [|exact Hy]. unfold ZappingUI.numberLe. intros; lia.
    + apply Z.leb_gt in Hc. constructor; [exact IH|].
      rewrite (insertChannel_perm x r).
      constructor; [unfold ZappingUI.numberLe; lia | exact Hy].
Qed.

Lemma sortChannels_sorted (l : list Types.Channel) :
  StronglySorted ZappingUI.numberLe
    (Builtins.sort Types.Channel ZappingUI.byNumber l).
Proof.
  induction l as [|x r IH]; simpl; [constructor|].
  now apply insertChannel_sorted.
Qed.

Lemma insertChannel_stable (k : Z) (x : Types.Channel) (l : list Types.Channel) :
  filter (fun c => Types.number c =? k)
    (Builtins.insertSorted Types.Channel ZappingUI.byNumber x l)
  = filter (fun c => Types.number c =? k) (x :: l).
Proof.
  induction l as [|y r IH]; [reflexivity|]. cbn [Builtins.insertSorted].
  unfold ZappingUI.byNumber at 1.
  destruct (Types.number x - Types.number y <=? 0) eqn:Hc; [reflexivity|].
  apply Z.leb_gt in Hc. simpl filter at 1. rewrite IH. simpl.
  destruct (Types.number x =? k) eqn:Hx, (Types.number y =? k) eqn:Hy;
    try reflexivity.
  apply Z.eqb_eq in Hx, Hy. lia.
Qed.

Lemma sortChannels_stable (k : Z) (l : list Types.Channel) :
  filter (fun c => Types.number c =? k)
    (Builtins.sort Types.Channel ZappingUI.byNumber l)
  = filter (fun c => Types.number c =? k) l.
Proof.
  induction l as [|x r IH]; [reflexivity|]. cbn [Builtins.sort].
  rewrite insertChannel_stable. simpl. now rewrite IH.
Qed.


(** ** The browser's state *)

Lemma updateChannelList_keeps (ui : ZappingUI.UI) :
  ZappingUI.searchBox (ZappingUI.updateChannelList ui) = ZappingUI.searchBox ui /\
  ZappingUI.token (ZappingUI.updateChannelList ui) = ZappingUI.token ui /\
  ZappingUI.channels (ZappingUI.updateChannelList ui) = ZappingUI.channels ui /\
  ZappingUI.filteredChannels (ZappingUI.updateChannelList ui)
  = ZappingUI.filteredChannels ui.
Proof.
  unfold ZappingUI.updateChannelList.
  destruct (ZappingUI.channelList ui); repeat split.
Qed.

Lemma updateChannelList_rows (ui : ZappingUI.UI) :
  ZappingUI.rowsShown (ZappingUI.updateChannelList ui).
Proof.
  unfold ZappingUI.rowsShown, ZappingUI.updateChannelList.
  destruct (ZappingUI.channelList ui) eqn:Hl; simpl; [reflexivity|].
  now rewrite Hl.
Qed.

(** X9.  When the channel list arrives, the browser's channels are the
    received ones in ascending order of their number, channels with the same
    number in the order received, and all of them are listed. *)
Theorem loaded_channels_sorted (ui : ZappingUI.UI) (values : list Types.Channel) :
  Permutation (ZappingUI.channels (ZappingUI.loadChannels_loaded ui values))
              values /\
  StronglySorted ZappingUI.numberLe
    (ZappingUI.channels (ZappingUI.loadChannels_loaded ui values)) /\
  (forall k,
      filter (fun c => Types.number c =? k)
        (ZappingUI.channels (ZappingUI.loadChannels_loaded ui values))
      = filter (fun c => Types.number c =? k) values) /\
  ZappingUI.filteredChannels (ZappingUI.loadChannels_loaded ui values)
  = ZappingUI.channels (ZappingUI.loadChannels_loaded ui values).
Proof.
  unfold ZappingUI.loadChannels_loaded. cbv zeta.
  destruct (updateChannelList_keeps
              {| ZappingUI.searchBox := ZappingUI.searchBox ui;
                 ZappingUI.channelList := ZappingUI.channelList ui;
                 ZappingUI.token := ZappingUI.token ui;
                 ZappingUI.channels :=
                   Builtins.sort Types.Channel ZappingUI.byNumber values;
                 ZappingUI.filteredChannels :=
                   Builtins.sort Types.Channel ZappingUI.byNumber values |})
    as (_ & _ & -> & ->).
  cbn [ZappingUI.channels ZappingUI.filteredChannels].
  repeat split.
  - apply sortChannels_perm.
  - apply sortChannels_sorted.
  - intros k. apply sortChannels_stable.
Qed.

Section Browser.

Variable toLowerCase : jsstring -> jsstring.

Lemma filterChannels_keeps (ui : ZappingUI.UI) (term : jsstring) :
  ZappingUI.searchBox (ZappingUI.filterChannels toLowerCase ui term)
  = ZappingUI.searchBox ui /\
  ZappingUI.channels (ZappingUI.filterChannels toLowerCase ui term)
  = ZappingUI.channels ui /\
  ZappingUI.filteredChannels (ZappingUI.filterChannels toLowerCase ui term)
  = ZappingUI.searchResult toLowerCase ui term.
Proof.
  unfold ZappingUI.filterChannels. cbv zeta.
  match goal with |- context [ZappingUI.updateChannelList ?u] =>
    destruct (updateChannelList_keeps u) as (-> & _ & -> & ->) end.
  repeat split. unfold ZappingUI.searchResult. cbn [ZappingUI.filteredChannels].
  destruct (trim (toLowerCase term)); reflexivity.
Qed.

(** What a key press does to the browser: nothing, or a new search value
    which is applied at once. *)
Lemma handleDirectTyping_cases (ui : ZappingUI.UI) (ch : option jsstring)
  (key : ZappingUI.Key) :
  ZappingUI.handleDirectTyping toLowerCase ui ch key = ui \/
  exists value newValue,
    ZappingUI.searchBox ui = Some value /\
    ZappingUI.handleDirectTyping toLowerCase ui ch key
    = ZappingUI.filterChannels toLowerCase (ZappingUI.setValue ui newValue)
        newValue /\
    ((exists c, ch = Some [c] /\ (32 <= c)%N /\ newValue = value ++ [c]) \/
     (value <> [] /\ newValue = Builtins.slice value 0 (-1))).
Proof.
  unfold ZappingUI.handleDirectTyping.
  destruct (ZappingUI.searchBox ui) as [value|] eqn:Hv; [|now left].
  destruct (ZappingUI.channelList ui); [|now left].
  destruct (_ || _ || _ || _); [now left|].
  destruct (existsb _ _); [now left|].
  destruct (ZappingUI.nameIs key (js "backspace")).
  - destruct value as [|c0 value]; [now left|]. cbn [truthy].
    right. exists (c0 :: value), (Builtins.slice (c0 :: value) 0 (-1)).
    repeat split. right. split; [discriminate | reflexivity].
  - destruct ch as [[|c [|c' ch]]|]; try now left.
    destruct (32 <=? c)%N eqn:Hc; [|now left].
    right. exists value, (value ++ [c]). repeat split.
    left. exists c. repeat split. now apply N.leb_le.
Qed.

Lemma step_rows (ui ui' : ZappingUI.UI) (ev : ZappingUI.Event) :
  ZappingUI.rowsShown ui ->
  ZappingUI.step toLowerCase ui ev = Some ui' ->
  ZappingUI.rowsShown ui'.
Proof.
  intros Hrows. destruct ev as [ch key| |values]; simpl.
  - intros [= <-].
    destruct (handleDirectTyping_cases ui ch key) as [->|(v & nv & _ & -> & _)];
      [exact Hrows | apply updateChannelList_rows].
  - unfold ZappingUI.onEscape, ZappingUI.clearSearch.
    destruct (ZappingUI.searchBox ui); [|discriminate].
    destruct (truthy _); [|discriminate].
    intros [= <-]. apply updateChannelList_rows.
  - intros [= <-]. apply updateChannelList_rows.
Qed.

Lemma run_rows (events : list ZappingUI.Event) (ui ui' : ZappingUI.UI) :
  ZappingUI.rowsShown ui ->
  ZappingUI.run toLowerCase ui events = Some ui' ->
  ZappingUI.rowsShown ui'.
Proof.
  revert ui. induction events as [|ev events IH]; intros ui Hrows; simpl.
  - now intros [= <-].
  - destruct (ZappingUI.step toLowerCase ui ev) as [ui1|] eqn:Hstep;
      [|discriminate].
    apply IH. eapply step_rows; eauto.
Qed.

(** X10.  Whatever keys are pressed and whenever the channel list arrives,
    row [i] of the list is the row of the channel that selecting row [i]
    plays, and there are as many rows as filtered channels. *)
Theorem selected_row_is_channel_played
  (events : list ZappingUI.Event) (ui ui' : ZappingUI.UI)
  (l : ZappingUI.ListElement) (i : nat) :
  ZappingUI.rowsShown ui ->
  ZappingUI.run toLowerCase ui events = Some ui' ->
  ZappingUI.channelList ui' = Some l ->
  nth_error (ZappingUI.items l) i
  = option_map ZappingUI.listItem (ZappingUI.selectedChannel ui' i) /\
  List.length (ZappingUI.items l)
  = List.length (ZappingUI.filteredChannels ui').
Proof.
  intros Hrows Hrun Hl. pose proof (run_rows events ui ui' Hrows Hrun) as H.
  unfold ZappingUI.rowsShown in H. rewrite Hl in H. rewrite H.
  unfold ZappingUI.selectedChannel. split.
  - apply nth_error_map.
  - apply length_map.
Qed.

End Browser.

Lemma selected_row_is_channel_played_witness :
  nth_error
    [js " 13 - Mega"; js " 21 - Canal 13"] 1
  = option_map ZappingUI.listItem (Some (SampleUI.channel 21 "Canal 13")).
Proof.
  refine (proj1 (selected_row_is_channel_played SampleUI.toLowerCase
            [ZappingUI.Keypress (Some (js "1")) (SampleUI.plainKey "1");
             ZappingUI.Keypress (Some (js "3")) (SampleUI.plainKey "3")]
            SampleUI.browser
            (ZappingUI.handleDirectTyping SampleUI.toLowerCase
               (ZappingUI.handleDirectTyping SampleUI.toLowerCase
                  SampleUI.browser (Some (js "1")) (SampleUI.plainKey "1"))
               (Some (js "3")) (SampleUI.plainKey "3"))
            {| ZappingUI.items := [js " 13 - Mega"; js " 21 - Canal 13"];
               ZappingUI.label := js " Channels (2/5) " |}
            1 _ _ _)).
  - vm_compute. reflexivity.
  - reflexivity.
  - vm_compute. reflexivity.
Defined.

Section SearchBox.

Variable toLowerCase : jsstring -> jsstring.

Lemma searchResult_channels (a b : ZappingUI.UI) (value : jsstring) :
  ZappingUI.channels a = ZappingUI.channels b ->
  ZappingUI.searchResult toLowerCase a value
  = ZappingUI.searchResult toLowerCase b value.
Proof. unfold ZappingUI.searchResult. now intros ->. Qed.

Lemma filterChannels_applied (ui : ZappingUI.UI) (value : jsstring) :
  ZappingUI.searchApplied toLowerCase
    (ZappingUI.filterChannels toLowerCase (ZappingUI.setValue ui value) value) /\
  ZappingUI.channels
    (ZappingUI.filterChannels toLowerCase (ZappingUI.setValue ui value) value)
  = ZappingUI.channels ui.
Proof.
  destruct (filterChannels_keeps toLowerCase (ZappingUI.setValue ui value) value)
    as (Hbox & Hch & Hf).
  split; [|exact Hch].
  unfold ZappingUI.searchApplied. rewrite Hbox. cbn [ZappingUI.setValue
    ZappingUI.searchBox]. rewrite Hf. now apply searchResult_channels.
Qed.

Lemma step_applied (ui ui' : ZappingUI.UI) (ev : ZappingUI.Event) :
  ZappingUI.isKeypress ev = true ->
  ZappingUI.searchApplied toLowerCase ui ->
  ZappingUI.step toLowerCase ui ev = Some ui' ->
  ZappingUI.searchApplied toLowerCase ui' /\
  ZappingUI.channels ui' = ZappingUI.channels ui.
Proof.
  intros Hkey Happlied. destruct ev as [ch key| |values]; simpl;
    [| |discriminate].
  - intros [= <-].
    destruct (handleDirectTyping_cases toLowerCase ui ch key)
      as [->|(v & nv & _ & -> & _)]; [now split|].
    apply filterChannels_applied.
  - unfold ZappingUI.onEscape, ZappingUI.clearSearch.
    destruct (ZappingUI.searchBox ui); [|discriminate].
    destruct (truthy _); [|discriminate].
    intros [= <-]. apply filterChannels_applied.
Qed.

(** X11.  Through any sequence of key presses, the filtered channels stay
    the ones that the text in the search box selects from the loaded
    channels, and the loaded channels stay as they are. *)
Theorem list_follows_search_box
  (events : list ZappingUI.Event) (ui ui' : ZappingUI.UI) :
  forallb ZappingUI.isKeypress events = true ->
  ZappingUI.searchApplied toLowerCase ui ->
  ZappingUI.run toLowerCase ui events = Some ui' ->
  ZappingUI.searchApplied toLowerCase ui' /\
  ZappingUI.channels ui' = ZappingUI.channels ui.
Proof.
  revert ui. induction events as [|ev events IH]; intros ui Hkeys Happlied;
    simpl.
  - intros [= <-]. now split.
  - simpl in Hkeys. apply andb_true_iff in Hkeys as [Hkey Hkeys].
    destruct (ZappingUI.step toLowerCase ui ev) as [ui1|] eqn:Hstep;
      [|discriminate].
    destruct (step_applied ui ui1 ev Hkey Happlied Hstep) as [H1 Hch1].
    intros Hrun. destruct (IH ui1 Hkeys H1 Hrun) as [H2 Hch2].
    split; [exact H2 | congruence].
Qed.

(** X13.  A key press leaves the text of the search box as it is, appends
    the character typed when that is one code unit of value 32 or more, or
    drops the last code unit: nothing else ever gets into the search text.
    The test of the code is [charCodeAt(0) >= 32]: the C0 controls stay out,
    the units from 127 to 159 do not. *)
Theorem search_text_edits (ui : ZappingUI.UI) (ch : option jsstring)
  (key : ZappingUI.Key) :
  ZappingUI.searchBox (ZappingUI.handleDirectTyping toLowerCase ui ch key)
  = ZappingUI.searchBox ui \/
  (exists value c,
      ZappingUI.searchBox ui = Some value /\ ch = Some [c] /\ (32 <= c)%N /\
      ZappingUI.searchBox (ZappingUI.handleDirectTyping toLowerCase ui ch key)
      = Some (value ++ [c])) \/
  (exists value c,
      ZappingUI.searchBox ui = Some (value ++ [c]) /\
      ZappingUI.searchBox (ZappingUI.handleDirectTyping toLowerCase ui ch key)
      = Some value).
Proof.
  destruct (handleDirectTyping_cases toLowerCase ui ch key)
    as [->|(v & nv & Hv & -> & Hedit)]; [now left|].
  right.
  destruct (filterChannels_keeps toLowerCase (ZappingUI.setValue ui nv) nv)
    as (-> & _ & _).
  cbn [ZappingUI.setValue ZappingUI.searchBox].
  destruct Hedit as [(c & -> & Hc & ->) | (Hne & ->)].
  - left. exists v, c. repeat split; assumption.
  - right. destruct (exists_last Hne) as (v' & c & ->).
    exists v', c. split; [exact Hv|]. now rewrite slice_drop_last.
Qed.

(** X12.  Typing a character and then pressing backspace brings the search
    back: the browser is in the state that applying the earlier search text
    gives. *)
Theorem type_then_backspace
  (ui : ZappingUI.UI) (value : jsstring) (l : ZappingUI.ListElement) (c : N)
  (key backspace : ZappingUI.Key) (del : jsstring) :
  ZappingUI.searchBox ui = Some value ->
  ZappingUI.channelList ui = Some l ->
  (32 <= c)%N ->
  ZappingUI.ctrl key || ZappingUI.meta key || ZappingUI.shift key = false ->
  existsb (ZappingUI.nameIs key) ZappingUI.navigationKeys = false ->
  ZappingUI.nameIs key (js "backspace") = false ->
  truthy del = true ->
  ZappingUI.ctrl backspace || ZappingUI.meta backspace
    || ZappingUI.shift backspace = false ->
  ZappingUI.name backspace = Some (js "backspace") ->
  ZappingUI.handleDirectTyping toLowerCase
    (ZappingUI.handleDirectTyping toLowerCase ui (Some [c]) key)
    (Some del) backspace
  = ZappingUI.filterChannels toLowerCase (ZappingUI.setValue ui value) value.
Proof.
  intros Hv Hl Hc Hmod Hnav Hnotbs Hdel Hmodbs Hbs.
  assert (Hfirst :
    ZappingUI.handleDirectTyping toLowerCase ui (Some [c]) key
    = ZappingUI.filterChannels toLowerCase
        (ZappingUI.setValue ui (value ++ [c])) (value ++ [c])).
  { unfold ZappingUI.handleDirectTyping. rewrite Hv, Hl.
    cbn [truthy negb orb]. rewrite Hmod, Hnav, Hnotbs.
    apply N.leb_le in Hc. now rewrite Hc. }
  rewrite Hfirst. clear Hfirst.
  unfold ZappingUI.handleDirectTyping at 1.
  destruct (filterChannels_keeps toLowerCase
              (ZappingUI.setValue ui (value ++ [c])) (value ++ [c]))
    as (Hbox & _ & _).
  rewrite Hbox. cbn [ZappingUI.setValue ZappingUI.searchBox].
  unfold ZappingUI.filterChannels at 1, ZappingUI.updateChannelList at 1.
  cbn [ZappingUI.channelList ZappingUI.setValue]. rewrite Hl.
  rewrite Hdel. cbn [negb orb]. rewrite Hmodbs.
  assert (Hname : ZappingUI.nameIs backspace (js "backspace") = true).
  { unfold ZappingUI.nameIs. rewrite Hbs. reflexivity. }
  assert (Hnavbs : existsb (ZappingUI.nameIs backspace) ZappingUI.navigationKeys
                   = false).
  { unfold ZappingUI.nameIs. rewrite Hbs. reflexivity. }
  rewrite Hnavbs, Hname.
  assert (Htr : truthy (value ++ [c]) = true) by (now destruct value).
  rewrite Htr, slice_drop_last.
  unfold ZappingUI.filterChannels, ZappingUI.updateChannelList.
  cbn [ZappingUI.channelList ZappingUI.setValue ZappingUI.searchBox
       ZappingUI.token ZappingUI.channels ZappingUI.filteredChannels].
  rewrite Hl. reflexivity.
Qed.

End SearchBox.


Lemma list_follows_search_box_witness :
  ZappingUI.channels
    (ZappingUI.handleDirectTyping SampleUI.toLowerCase
       (ZappingUI.handleDirectTyping SampleUI.toLowerCase
          SampleUI.browser (Some (js "c")) (SampleUI.plainKey "c"))
       (Some (js "n")) (SampleUI.plainKey "n"))
  = ZappingUI.channels SampleUI.browser.
Proof.
  refine (proj2 (list_follows_search_box SampleUI.toLowerCase
            [ZappingUI.Keypress (Some (js "c")) (SampleUI.plainKey "c");
             ZappingUI.Keypress (Some (js "n")) (SampleUI.plainKey "n")]
            SampleUI.browser _ _ _ _)).
  - reflexivity.
  - vm_compute. reflexivity.
  - reflexivity.
Defined.

Lemma type_then_backspace_witness :
  ZappingUI.handleDirectTyping SampleUI.toLowerCase
    (ZappingUI.handleDirectTyping SampleUI.toLowerCase SampleUI.browser
       (Some (js "m")) (SampleUI.plainKey "m"))
    (Some [127%N]) (SampleUI.plainKey "backspace")
  = ZappingUI.filterChannels SampleUI.toLowerCase
      (ZappingUI.setValue SampleUI.browser []) [].
Proof.
  apply (type_then_backspace SampleUI.toLowerCase SampleUI.browser []
           {| ZappingUI.items :=
                map ZappingUI.listItem
                  (ZappingUI.filteredChannels SampleUI.browser);
              ZappingUI.label := js " Channels (5/5) " |});
    try reflexivity.
  discriminate.
Defined.

(** ** Searching and listing *)

(** X14.  [filterChannels] searches with the text of the search box in
    lower case and trimmed.  When that term of one text contains the term
    of another, [filterChannels] with the first text lists only channels
    that [filterChannels] with the other text lists too, and in any case
    only channels of the lineup.  (The condition is on the terms: a text
    that extends another need not have a term that contains the other's.) *)
Theorem narrower_search_finds_less
  (toLowerCase : jsstring -> jsstring) (ui : ZappingUI.UI)
  (text wider : jsstring) (c : Types.Channel) :
  Builtins.includes (trim (toLowerCase text)) (trim (toLowerCase wider))
  = true ->
  In c (ZappingUI.filteredChannels
          (ZappingUI.filterChannels toLowerCase ui text)) ->
  In c (ZappingUI.filteredChannels
          (ZappingUI.filterChannels toLowerCase ui wider)) /\
  In c (ZappingUI.channels ui).
Proof.
  intros Hinc Hin.
  destruct (filterChannels_keeps toLowerCase ui text) as (_ & _ & Htext).
  destruct (filterChannels_keeps toLowerCase ui wider) as (_ & _ & ->).
  rewrite Htext in Hin. clear Htext.
  unfold ZappingUI.searchResult in *.
  assert (Hlineup : In c (ZappingUI.channels ui)).
  { destruct (trim (toLowerCase text)); [exact Hin|].
    apply filter_In in Hin. tauto. }
  split; [|exact Hlineup].
  destruct (trim (toLowerCase wider)) as [|x term'] eqn:Hwider;
    [exact Hlineup|].
  destruct (trim (toLowerCase text)) as [|y term] eqn:Hterm.
  - apply includes_app in Hinc as (a & b & Hab).
    destruct a; discriminate Hab.
  - apply filter_In in Hin as [_ Hm]. apply filter_In.
    split; [exact Hlineup|]. unfold ZappingUI.matches in *.
    apply orb_true_iff in Hm. apply orb_true_iff.
    destruct Hm as [Hm|Hm]; [left|right]; eapply includes_trans; eauto.
Qed.

Lemma narrower_search_finds_less_witness :
  In (SampleUI.channel 21 "Canal 13")
     (ZappingUI.filteredChannels
        (ZappingUI.filterChannels SampleUI.toLowerCase SampleUI.browser
           (js " 1 "))) /\
  In (SampleUI.channel 21 "Canal 13") (ZappingUI.channels SampleUI.browser).
Proof.
  apply (narrower_search_finds_less SampleUI.toLowerCase SampleUI.browser
           (js "AL 1") (js " 1 ")).
  - reflexivity.
  - vm_compute. left. reflexivity.
Defined.

Lemma digits_below_1000 (n : Z) :
  0 <= n < 1000 -> (List.length (NumberToString n) <= 3)%nat.
Proof.
  intros Hn.
  assert (Hall : forallb (fun k => List.length (NumberToString (Z.of_nat k)) <=? 3)%nat
                   (seq 0 1000) = true) by (vm_compute; reflexivity).
  rewrite forallb_forall in Hall.
  specialize (Hall (Z.to_nat n)). rewrite Z2Nat.id in Hall by lia.
  apply Nat.leb_le, Hall, in_seq. lia.
Qed.

(** X15.  The row of a channel numbered 0 to 999 is its number, filled up
    with spaces on the left to three columns, then " - " and the name: the
    names of all such rows start in the same column. *)
Theorem list_rows_aligned (channel : Types.Channel) :
  0 <= Types.number channel < 1000 ->
  exists spaces,
    ZappingUI.listItem channel
    = spaces ++ NumberToString (Types.number channel) ++ js " - "
        ++ Types.name channel /\
    Forall (eq 32%N) spaces /\
    List.length (spaces ++ NumberToString (Types.number channel)) = 3%nat.
Proof.
  intros Hn. pose proof (digits_below_1000 _ Hn) as Hlen.
  exists (repeat 32%N (3 - List.length (NumberToString (Types.number channel)))).
  assert (Hrep : forall k, List.concat (repeat [32%N] k) = repeat 32%N k).
  { induction k; simpl; [reflexivity | now rewrite IHk]. }
  repeat split.
  - unfold ZappingUI.listItem, Builtins.padStart. cbv zeta.
    change (js " ") with [32%N]. cbv iota.
    rewrite Hrep, firstn_all2 by (rewrite repeat_length; lia).
    now rewrite <- app_assoc.
  - apply Forall_forall. intros x Hx. now apply repeat_spec in Hx.
  - rewrite length_app, repeat_length. lia.
Qed.

Lemma list_rows_aligned_witness :
  exists spaces,
    ZappingUI.listItem (SampleUI.channel 7 "TVN")
    = spaces ++ NumberToString 7 ++ js " - " ++ js "TVN" /\
    Forall (eq 32%N) spaces /\
    List.length (spaces ++ NumberToString 7) = 3%nat.
Proof.
  apply (list_rows_aligned (SampleUI.channel 7 "TVN")).
  split; [discriminate | reflexivity].
Defined.




(* ================================================================= *)
(** * The player *)

(** X17.  After [cleanup] the player holds no timer and no play token, and
    a heartbeat that is still due sends nothing. *)
Theorem no_heartbeat_after_cleanup (s : PlayerService.State) :
  PlayerService.heartbeatInterval (fst (PlayerService.cleanup s)) = None /\
  PlayerService.playToken (fst (PlayerService.cleanup s)) = None /\
  PlayerService.sendHeartbeat (fst (PlayerService.cleanup s)) = [] /\
  forall timer,
    PlayerService.startHeartbeat (fst (PlayerService.cleanup s)) timer
    = (fst (PlayerService.cleanup s), []).
Proof.
  unfold PlayerService.cleanup. cbv zeta.
  destruct (PlayerService.mpvProcess s) as [[p k]|]; [destruct k|];
    repeat split.
Qed.

(** X18.  [cleanup] does at most two things on the outside, in this
    order: it clears at most one timer, the one the player holds, and sends
    at most one signal, to the mpv process the player holds if that has not
    been signalled before.  A second [cleanup] changes nothing and does
    nothing. *)
Theorem cleanup_once (s : PlayerService.State) :
  (exists clears kills,
      snd (PlayerService.cleanup s) = clears ++ kills /\
      (clears = [] \/
       exists timer, clears = [PlayerService.ClearInterval timer]) /\
      (kills = [] \/ exists p, kills = [PlayerService.Kill p])) /\
  (forall timer,
      In (PlayerService.ClearInterval timer) (snd (PlayerService.cleanup s)) ->
      PlayerService.heartbeatInterval s = Some timer) /\
  (forall p,
      In (PlayerService.Kill p) (snd (PlayerService.cleanup s)) ->
      PlayerService.mpvProcess s
      = Some {| PlayerService.pid := p; PlayerService.killed := false |}) /\
  (List.length (snd (PlayerService.cleanup s)) <= 2)%nat /\
  PlayerService.cleanup (fst (PlayerService.cleanup s))
  = (fst (PlayerService.cleanup s), []).
Proof.
  unfold PlayerService.cleanup. cbv zeta.
  split.
  - exists (match PlayerService.heartbeatInterval s with
            | Some timer => [PlayerService.ClearInterval timer]
            | None => []
            end).
    destruct (PlayerService.heartbeatInterval s) as [t|];
      destruct (PlayerService.mpvProcess s) as [[p k]|];
      [destruct k| |destruct k|]; cbn [negb snd];
      eexists; (split; [reflexivity|]); split; eauto.
  - destruct (PlayerService.heartbeatInterval s) as [t|];
      destruct (PlayerService.mpvProcess s) as [[p k]|];
      [destruct k| |destruct k|];
      simpl; repeat split; try lia;
      intros x H; repeat (destruct H as [H|H]; try discriminate H);
      try contradiction; now injection H as <-.
Qed.

(** X19.  The URL for playback at a time is the live URL of the channel
    followed by "&startTime=" and the timestamp; an end time that is left
    out or 0 adds nothing, any other adds "&endTime=" and its value. *)
Theorem timeUrl_extends_liveUrl
  (channel : Types.Channel) (playToken : jsstring) (startTime : Z)
  (endTime : option Z) :
  PlayerService.timeUrl channel playToken startTime endTime
  = PlayerService.liveUrl channel playToken
      ++ js "&startTime=" ++ NumberToString startTime
      ++ match endTime with
         | None | Some 0 => []
         | Some e => js "&endTime=" ++ NumberToString e
         end.
Proof.
  unfold PlayerService.timeUrl, PlayerService.liveUrl. cbv zeta.
  destruct endTime as [[|e|e]|]; cbn [Z.eqb negb];
    rewrite <- ?app_assoc, ?app_nil_r; reflexivity.
Qed.

(* ================================================================= *)
(** * Activation *)

Lemma checkCodeLinked_returns_token_aux
  (posted : ApiService.Posted ApiService.CheckLinkedResponse)
  (linked : ApiService.Linked) :
  ApiService.checkCodeLinked posted = Exceptions.Returned linked ->
  ApiService.linkedStatus linked = true /\
  truthy (ApiService.token linked) = true /\
  exists httpStatus,
    posted = ApiService.Response httpStatus
               {| ApiService.status := ApiService.StatusBool true;
                  ApiService.data := Some (Some (ApiService.token linked)) |}.
Proof.
  unfold ApiService.checkCodeLinked.
  destruct posted as [httpStatus [st dat]|[s t m| |e]]; try discriminate.
  cbn [ApiService.status ApiService.data].
  destruct st as [[|]|shown]; try discriminate.
  destruct dat as [[t|]|]; try discriminate.
  destruct (truthy t) eqn:Ht; [|discriminate].
  intros [= <-]. cbn. repeat split; eauto.
Qed.

(** X20.  [checkCodeLinked] returns exactly on a response whose status is
    [true] and whose token is a non-empty string, and it returns that token
    with status [true]: it never hands out an empty token. *)
Theorem checkCodeLinked_returns_token
  (posted : ApiService.Posted ApiService.CheckLinkedResponse)
  (linked : ApiService.Linked) :
  ApiService.checkCodeLinked posted = Exceptions.Returned linked <->
  ApiService.linkedStatus linked = true /\
  truthy (ApiService.token linked) = true /\
  exists httpStatus,
    posted = ApiService.Response httpStatus
               {| ApiService.status := ApiService.StatusBool true;
                  ApiService.data := Some (Some (ApiService.token linked)) |}.
Proof.
  split; [apply checkCodeLinked_returns_token_aux|].
  intros (Hst & Htok & httpStatus & ->).
  unfold ApiService.checkCodeLinked. cbn [ApiService.status ApiService.data].
  rewrite Htok. destruct linked as [st tok]. cbn in Hst. now rewrite Hst.
Qed.

(** X21.  Every way [checkCodeLinked] fails carries a message that says
    what went wrong, except an error from outside the request, which is
    thrown as it came: an error status gives "HTTP <status>: ..." and never
    an empty explanation, no response gives the endpoint that could not be
    reached, and a response without status [true] or without a token says
    so. *)
Theorem checkCodeLinked_failure_messages
  (posted : ApiService.Posted ApiService.CheckLinkedResponse)
  (e : Exceptions.Error) :
  ApiService.checkCodeLinked posted = Exceptions.Thrown e ->
  match posted with
  | ApiService.Rejected (ApiService.OtherError error) => e = error
  | ApiService.Rejected (ApiService.ErrorResponse status _ _) =>
      exists explanation,
        explanation <> [] /\
        Exceptions.message e
        = js "HTTP " ++ NumberToString status ++ js ": " ++ explanation
  | ApiService.Rejected ApiService.NoResponse =>
      Exceptions.message e
      = js "Network error: Could not connect to "
          ++ ApiService.ACTIVATION_CHECK_LINKED
  | ApiService.Response _ response =>
      match ApiService.status response with
      | ApiService.StatusBool true =>
          Exceptions.message e = js "No token received from server"
      | other =>
          Exceptions.message e
          = js "API returned status: " ++ ApiService.showStatus other
      end
  end.
Proof.
  unfold ApiService.checkCodeLinked.
  destruct posted as [httpStatus [st dat]|[s t m| |error]].
  - cbn [ApiService.status ApiService.data].
    destruct st as [[|]|shown]; try (now intros [= <-]).
    destruct dat as [[t|]|]; try (now intros [= <-]).
    destruct (truthy t); [discriminate | now intros [= <-]].
  - intros [= <-]. cbn [Exceptions.message].
    exists (Exceptions.orElse m
              (Exceptions.orElse (Some t) (js "Unknown server error"))).
    split; [|reflexivity].
    unfold Exceptions.orElse.
    destruct m as [[|c m]|]; cbn [truthy];
      try discriminate; destruct t; cbn [truthy]; discriminate.
  - now intros [= <-].
  - now intros [= <-].
Qed.

Lemma checkCodeLinked_failure_messages_witness :
  Exceptions.message
    {| Exceptions.message := js "API returned status: false" |}
  = js "API returned status: "
      ++ ApiService.showStatus (ApiService.StatusBool false).
Proof.
  apply (checkCodeLinked_failure_messages
           (ApiService.Response 200
              {| ApiService.status := ApiService.StatusBool false;
                 ApiService.data := None |})).
  reflexivity.
Defined.

Section Configuration.

Variable Disk : Type.
Variable fs : ConfigService.FileSystem Disk.
Variable CONFIG_FILE : jsstring.

Lemma loadToken_after_saveToken (token : jsstring) (d d' : Disk) :
  ConfigService.keeps Disk fs CONFIG_FILE token ->
  ConfigService.saveToken Disk fs CONFIG_FILE token d = (d', None) ->
  ConfigService.loadToken Disk fs CONFIG_FILE d' = Some (trim token).
Proof.
  intros Hkeeps Hsave.
  unfold ConfigService.saveToken in Hsave. cbv zeta in Hsave.
  destruct (if negb _ then _ else _) as [d1 [e|]]; [discriminate|].
  destruct (Hkeeps d1 d' Hsave) as [Hex Hread].
  unfold ConfigService.loadToken, ConfigService.exists_.
  now rewrite Hex, Hread.
Qed.

(** What [loadToken] returns is trimmed text. *)
Lemma loadToken_trimmed (d : Disk) (token : jsstring) :
  ConfigService.loadToken Disk fs CONFIG_FILE d = Some token ->
  trim token = token.
Proof.
  unfold ConfigService.loadToken.
  destruct (negb _); [discriminate|].
  destruct (ConfigService.readFileSync _ _ _ _) as [content|e];
    [|discriminate].
  intros [= <-]. apply trim_idem.
Qed.

(** X22.  A token that has been saved is the token loaded next, without the
    white space around it: on a file system that keeps what is written,
    [loadToken] after a [saveToken] that did not throw returns the trimmed
    token, so a token with no white space around it comes back as it was. *)
Theorem saved_token_is_loaded (token : jsstring) (d d' : Disk) :
  ConfigService.keeps Disk fs CONFIG_FILE token ->
  ConfigService.saveToken Disk fs CONFIG_FILE token d = (d', None) ->
  ConfigService.loadToken Disk fs CONFIG_FILE d' = Some (trim token) /\
  (trim token = token ->
   ConfigService.loadToken Disk fs CONFIG_FILE d' = Some token).
Proof.
  intros Hkeeps Hsave.
  pose proof (loadToken_after_saveToken token d d' Hkeeps Hsave) as Hload.
  split; [exact Hload|]. intros Htrim. now rewrite Hload, Htrim.
Qed.

Variable postGetCode : ApiService.Posted jsstring.
Variable postCheckLinked :
  jsstring -> ApiService.Posted ApiService.CheckLinkedResponse.

Lemma login_returned (d d' : Disk) (token : jsstring)
  (requests : list AuthService.Request) :
  AuthService.login Disk fs CONFIG_FILE postGetCode postCheckLinked d
  = (Exceptions.Returned token, d', requests) ->
  truthy token = true /\
  ConfigService.saveToken Disk fs CONFIG_FILE token d = (d', None) /\
  exists code httpStatus httpStatus',
    postGetCode = ApiService.Response httpStatus code /\
    postCheckLinked code
    = ApiService.Response httpStatus'
        {| ApiService.status := ApiService.StatusBool true;
           ApiService.data := Some (Some token) |} /\
    requests = [AuthService.GetCode; AuthService.CheckLinked code].
Proof.
  unfold AuthService.login.
  destruct (ApiService.getActivationCode postGetCode) as [code|e] eqn:Hcode;
    [|discriminate].
  destruct (ApiService.checkCodeLinked (postCheckLinked code))
    as [linked|e] eqn:Hlinked; [|discriminate].
  destruct (checkCodeLinked_returns_token_aux _ _ Hlinked)
    as (Hst & Htok & httpStatus' & Hposted).
  rewrite Hst, Htok. cbn [andb].
  destruct (ConfigService.saveToken _ _ _ _ _) as [d1 [e|]] eqn:Hsave;
    [discriminate|].
  intros [= <- <- <-]. split; [exact Htok|]. split; [exact Hsave|].
  unfold ApiService.getActivationCode in Hcode.
  destruct postGetCode as [httpStatus code'|[s t m| |e]]; try discriminate.
  injection Hcode as ->. eauto 6.
Qed.

(** X23.  A token that [authenticate] returns is never empty.  It is the
    saved token, returned without any request and without touching the
    disk; or it is the token of the "linked" response, the answer of the
    server to the check of the code that the server gave out, returned
    after exactly these two requests and after it has been saved.  On a
    file system that keeps what is written the next [loadToken] finds it,
    trimmed. *)
Theorem authenticate_token_is_kept (d d' : Disk) (token : jsstring)
  (requests : list AuthService.Request) :
  AuthService.authenticate Disk fs CONFIG_FILE postGetCode postCheckLinked d
  = (Exceptions.Returned token, d', requests) ->
  truthy token = true /\
  (requests = [] /\ d' = d /\
   ConfigService.loadToken Disk fs CONFIG_FILE d = Some token \/
   exists code httpStatus httpStatus',
     postGetCode = ApiService.Response httpStatus code /\
     postCheckLinked code
     = ApiService.Response httpStatus'
         {| ApiService.status := ApiService.StatusBool true;
            ApiService.data := Some (Some token) |} /\
     requests = [AuthService.GetCode; AuthService.CheckLinked code] /\
     ConfigService.saveToken Disk fs CONFIG_FILE token d = (d', None)) /\
  (ConfigService.keeps Disk fs CONFIG_FILE token ->
   ConfigService.loadToken Disk fs CONFIG_FILE d' = Some (trim token)).
Proof.
  unfold AuthService.authenticate. cbv zeta.
  assert (Hlogin :
    AuthService.login Disk fs CONFIG_FILE postGetCode postCheckLinked d
    = (Exceptions.Returned token, d', requests) ->
    truthy token = true /\
    (requests = [] /\ d' = d /\
     ConfigService.loadToken Disk fs CONFIG_FILE d = Some token \/
     exists code httpStatus httpStatus',
       postGetCode = ApiService.Response httpStatus code /\
       postCheckLinked code
       = ApiService.Response httpStatus'
           {| ApiService.status := ApiService.StatusBool true;
              ApiService.data := Some (Some token) |} /\
       requests = [AuthService.GetCode; AuthService.CheckLinked code] /\
       ConfigService.saveToken Disk fs CONFIG_FILE token d = (d', None)) /\
    (ConfigService.keeps Disk fs CONFIG_FILE token ->
     ConfigService.loadToken Disk fs CONFIG_FILE d' = Some (trim token))).
  { intros H. apply login_returned in H.
    destruct H as (Htok & Hsave & code & h & h' & Hcode & Hlinked & ->).
    split; [exact Htok|]. split; [right; exists code, h, h'; auto|].
    intros Hkeeps. now apply (loadToken_after_saveToken token d d'). }
  destruct (ConfigService.loadToken Disk fs CONFIG_FILE d) as [saved|] eqn:Hsaved;
    [|exact Hlogin].
  destruct (truthy saved) eqn:Ht; [|exact Hlogin].
  intros [= <- <- <-]. split; [exact Ht|]. split; [now left|].
  intros _. rewrite Hsaved. f_equal. symmetry.
  now apply (loadToken_trimmed d).
Qed.

(** X24.  When [authenticate] fails it has sent at least one request, and
    it has left the disk as it was unless saving the token is what failed. *)
Theorem authenticate_failure (d d' : Disk) (e : Exceptions.Error)
  (requests : list AuthService.Request) :
  AuthService.authenticate Disk fs CONFIG_FILE postGetCode postCheckLinked d
  = (Exceptions.Thrown e, d', requests) ->
  requests <> [] /\
  (d' = d \/
   exists token,
     ConfigService.saveToken Disk fs CONFIG_FILE token d = (d', Some e)).
Proof.
  unfold AuthService.authenticate. cbv zeta.
  assert (Hlogin :
    AuthService.login Disk fs CONFIG_FILE postGetCode postCheckLinked d
    = (Exceptions.Thrown e, d', requests) ->
    requests <> [] /\
    (d' = d \/
     exists token,
       ConfigService.saveToken Disk fs CONFIG_FILE token d = (d', Some e))).
  { unfold AuthService.login.
    destruct (ApiService.getActivationCode postGetCode) as [code|e0].
    - destruct (ApiService.checkCodeLinked (postCheckLinked code))
        as [linked|e1].
      + destruct (_ && _).
        * destruct (ConfigService.saveToken _ _ _ _ _) as [d1 [e2|]] eqn:Hsave;
            [|discriminate].
          intros [= <- <- <-]. split; [discriminate|]. right. eauto.
        * intros [= <- <- <-]. split; [discriminate | now left].
      + intros [= <- <- <-]. split; [discriminate | now left].
    - intros [= <- <- <-]. split; [discriminate | now left]. }
  destruct (ConfigService.loadToken Disk fs CONFIG_FILE d) as [saved|];
    [|exact Hlogin].
  destruct (truthy saved); [discriminate | exact Hlogin].
Qed.

End Configuration.

Lemma SampleDisk_keeps (token : jsstring) :
  ConfigService.keeps SampleDisk.Disk SampleDisk.fs SampleDisk.CONFIG_FILE token.
Proof.
  intros d d'. cbn. intros [= <-]. cbn.
  unfold Builtins.strictEquals.
  destruct (list_eq_dec N.eq_dec SampleDisk.CONFIG_FILE SampleDisk.CONFIG_FILE);
    [split; reflexivity | contradiction].
Qed.

Lemma saved_token_is_loaded_witness :
  ConfigService.loadToken SampleDisk.Disk SampleDisk.fs SampleDisk.CONFIG_FILE
    [(SampleDisk.CONFIG_FILE, js " tok-123 ")]
  = Some (trim (js " tok-123 ")).
Proof.
  apply (saved_token_is_loaded SampleDisk.Disk SampleDisk.fs
           SampleDisk.CONFIG_FILE (js " tok-123 ") []).
  - apply SampleDisk_keeps.
  - reflexivity.
Defined.

Lemma authenticate_token_is_kept_witness :
  truthy (js "tok-123") = true.
Proof.
  apply (authenticate_token_is_kept SampleDisk.Disk SampleDisk.fs
           SampleDisk.CONFIG_FILE
           (ApiService.Response 200 (js "ABC123"))
           (fun _ => ApiService.Response 200
                       {| ApiService.status := ApiService.StatusBool true;
                          ApiService.data := Some (Some (js "tok-123")) |})
           [] [(SampleDisk.CONFIG_FILE, js "tok-123")] (js "tok-123")
           [AuthService.GetCode; AuthService.CheckLinked (js "ABC123")]).
  reflexivity.
Defined.

Lemma authenticate_failure_witness :
  [AuthService.GetCode; AuthService.CheckLinked (js "ABC123")] <> [].
Proof.
  apply (authenticate_failure SampleDisk.Disk SampleDisk.fs
           SampleDisk.CONFIG_FILE
           (ApiService.Response 200 (js "ABC123"))
           (fun _ => ApiService.Response 200
                       {| ApiService.status := ApiService.StatusBool false;
                          ApiService.data := None |})
           [] [] {| Exceptions.message := js "API returned status: false" |}
           [AuthService.GetCode; AuthService.CheckLinked (js "ABC123")]).
  reflexivity.
Defined.


(* ================================================================= *)
(** * The time dialog *)

(** X25.  The time dialog closes without a word on a blank entry.  On any
    other entry it resolves as [parseTimeExpression] does on the text as
    entered, as [--time] passes it: refused exactly when that is null,
    accepted with the same timestamp and date otherwise, and with a
    description that quotes the entry without the white space around it. *)
Theorem time_dialog_resolves_like_parse
  (host : Host) (value : jsstring) (w : World) :
  match valueOf (TimeDialog.submit host value) w with
  | TimeDialog.Dismissed =>
      forallb isWhiteSpace value = true /\
      worldAfter (TimeDialog.submit host value) w = w
  | TimeDialog.Refused _ =>
      forallb isWhiteSpace value = false /\
      valueOf (parseTimeExpression host value) w = None
  | TimeDialog.Accepted parsed =>
      exists direct,
        valueOf (parseTimeExpression host value) w = Some direct /\
        timestamp parsed = timestamp direct /\
        date parsed = date direct /\
        description parsed
        = Spec.description host (trim value) (date parsed) (nowOfDescription w)
  end.
Proof.
  unfold TimeDialog.submit, valueOf, worldAfter, bind, ret. cbv zeta.
  destruct (truthy (trim value)) eqn:Hne; cbn [negb].
  - assert (Hblank : forallb isWhiteSpace value = false).
    { destruct (forallb isWhiteSpace value) eqn:Hb; [|reflexivity].
      apply trim_blank_iff in Hb. congruence. }
    rewrite !parseTimeExpression_run, trim_idem, Hne. cbn [negb]. cbv zeta.
    destruct (grammar host (trim value) (nowOfChrono w)) as [|result rest];
      [now split|].
    destruct (chrono.date result >? nowOfParse w).
    + destruct (ES.setDate _ _ _) as [dayBefore|]; [|now split].
      destruct (dayBefore <=? nowOfParse w); [|now split].
      cbn. eexists. repeat split.
    + cbn. eexists. repeat split.
  - cbn. split; [|reflexivity]. now apply trim_blank_iff.
Qed.

(* ================================================================= *)
(** * The command line *)

Section CommandLine.

Variable host : Host.
Variable toLowerCase : jsstring -> jsstring.
Variable Disk : Type.
Variable fs : ConfigService.FileSystem Disk.
Variable CONFIG_FILE : jsstring.
Variable postGetCode : ApiService.Posted jsstring.
Variable postCheckLinked :
  jsstring -> ApiService.Posted ApiService.CheckLinkedResponse.
Variable getChannelList : jsstring -> Exceptions.Completion (list Types.Channel).
Variable played : CLI.Action -> Exceptions.Completion unit.

(** Going through the branches of [play]. *)
Ltac play_branches :=
  unfold CLI.play, CLI.fatal; cbv zeta;
  repeat match goal with
         | |- context [match ?x with _ => _ end] => destruct x eqn:?
         end;
  cbn [CLI.console CLI.actions CLI.status].

Lemma last_line (before : list CLI.Line) (a b : CLI.Line) :
  before ++ [a; b] = (before ++ [a]) ++ [b].
Proof. now rewrite <- app_assoc. Qed.

Lemma play_exit (options : CLI.Options) (w : World) (token : jsstring)
  (console : list CLI.Line) (actions : list CLI.Action) (code : Z) :
  CLI.status (CLI.play host toLowerCase getChannelList played options w token
                console actions) = CLI.Exit code ->
  code = 1 /\
  exists before text,
    CLI.console (CLI.play host toLowerCase getChannelList played options w
                   token console actions) = before ++ [CLI.Err text] /\
    (text = js "Use --list to see available channels" \/
     text = js "Use --examples to see supported formats" \/
     exists error, text = js "Error: " ++ Exceptions.message error).
Proof.
  play_branches; intros H; try discriminate H; injection H as <-;
    (split; [reflexivity|]); rewrite ?last_line;
    do 2 eexists; (split; [reflexivity|]); eauto.
Qed.

Lemma play_no_request (options : CLI.Options) (w : World) (token : jsstring)
  (console : list CLI.Line) (actions : list CLI.Action) :
  forallb (fun a => negb (CLI.isRequest a)) actions = true ->
  forallb (fun a => negb (CLI.isRequest a))
    (CLI.actions (CLI.play host toLowerCase getChannelList played options w
                    token console actions)) = true.
Proof.
  intros H. play_branches;
    rewrite ?forallb_app, ?H; reflexivity.
Qed.

Lemma play_without_time (options : CLI.Options) (w : World) (token : jsstring)
  (console : list CLI.Line) (actions : list CLI.Action) (ex : bool) :
  CLI.list_ options = true \/ CLI.given (CLI.channel options) = None ->
  CLI.play host toLowerCase getChannelList played options w token console
    actions
  = CLI.play host toLowerCase getChannelList played
      {| CLI.channel := CLI.channel options; CLI.time := None;
         CLI.list_ := CLI.list_ options; CLI.examples := ex |}
      w token console actions.
Proof.
  intros Hno. unfold CLI.play. cbv zeta. cbn [CLI.list_ CLI.channel CLI.time].
  destruct (getChannelList token); [|reflexivity].
  destruct (CLI.list_ options); [reflexivity|].
  destruct Hno as [Hno|Hno]; [discriminate|]. now rewrite Hno.
Qed.

Lemma play_at_time (options : CLI.Options) (w : World) (token : jsstring)
  (console : list CLI.Line) (actions : list CLI.Action)
  (found : Types.Channel) (token' : jsstring) (startTime : Z) :
  In (CLI.PlayChannelAtTime found token' startTime)
     (CLI.actions (CLI.play host toLowerCase getChannelList played options w
                     token console actions)) ->
  In (CLI.PlayChannelAtTime found token' startTime) actions \/
  token' = token /\
  exists values query expression parsedTime,
    getChannelList token = Exceptions.Returned values /\
    CLI.given (CLI.channel options) = Some query /\
    ZappingUI.findChannel toLowerCase values query = Some found /\
    CLI.given (CLI.time options) = Some expression /\
    valueOf (parseTimeExpression host expression) w = Some parsedTime /\
    startTime = timestamp parsedTime /\
    In (CLI.Out (js "Playing " ++ Types.name found ++ js ": "
                   ++ description parsedTime))
       (CLI.console (CLI.play host toLowerCase getChannelList played options w
                       token console actions)).
Proof.
  play_branches; intros Hin; rewrite ?in_app_iff in Hin; simpl in Hin;
    repeat (destruct Hin as [Hin|Hin]);
    try (now left); try discriminate Hin; try contradiction;
    injection Hin as <- <- <-; right; (split; [reflexivity|]);
    do 4 eexists; repeat split; eauto;
    rewrite ?in_app_iff; simpl; auto 6.
Qed.

(** X26.  The calls of [process.exit] that [runCLI] makes itself all pass
    the code 1, and each comes right after a [console.error]: when it is
    [runCLI] that ends the process, the last line on the console is on
    standard error and is "Authentication failed", one of the two hints
    ("Use --list ...", "Use --examples ...") or "Error: " with the message
    of what was thrown.  (Exits that are not calls of [runCLI], those of
    commander inside [program.parse()] and of the handlers that the player
    installs for signals and uncaught exceptions, are not in [CLI.Status].) *)
Theorem cli_failure_is_explained
  (options : CLI.Options) (d : Disk) (w : World) (code : Z) :
  CLI.status (fst (CLI.runCLI host toLowerCase Disk fs CONFIG_FILE postGetCode
                     postCheckLinked getChannelList played options d w))
  = CLI.Exit code ->
  code = 1 /\
  exists before text,
    CLI.console (fst (CLI.runCLI host toLowerCase Disk fs CONFIG_FILE
                        postGetCode postCheckLinked getChannelList played
                        options d w))
    = before ++ [CLI.Err text] /\
    (text = js "Authentication failed" \/
     text = js "Use --list to see available channels" \/
     text = js "Use --examples to see supported formats" \/
     exists error, text = js "Error: " ++ Exceptions.message error).
Proof.
  assert (Hplay : forall token console actions,
    CLI.status (CLI.play host toLowerCase getChannelList played options w
                  token console actions) = CLI.Exit code ->
    code = 1 /\
    exists before text,
      CLI.console (CLI.play host toLowerCase getChannelList played options w
                     token console actions) = before ++ [CLI.Err text] /\
      (text = js "Authentication failed" \/
       text = js "Use --list to see available channels" \/
       text = js "Use --examples to see supported formats" \/
       exists error, text = js "Error: " ++ Exceptions.message error)).
  { intros token console actions H.
    destruct (play_exit options w token console actions code H)
      as (Hcode & before & text & Hconsole & Htext).
    split; [exact Hcode|]. exists before, text. tauto. }
  unfold CLI.runCLI, CLI.fatal.
  destruct (CLI.examples options); [discriminate|].
  destruct (negb _).
  - destruct (AuthService.authenticate _ _ _ _ _ _) as [[[token|e] d'] requests];
      cbn [fst].
    + destruct (truthy token); cbn [fst]; [apply Hplay|].
      cbn [CLI.status CLI.console]. intros [= <-]. split; eauto 6.
    + cbn [CLI.status CLI.console]. intros [= <-]. split; eauto 8.
  - destruct (CLI.given _) as [token|]; cbn [fst]; [apply Hplay|].
    cbn [CLI.status CLI.console]. intros [= <-]. split; [reflexivity|].
    exists [], (js "Authentication failed"). auto.
Qed.

(** X27.  With a configuration file in place [runCLI] never asks for
    activation and leaves the disk as it is; when the token in the file is
    blank or cannot be read, it ends with "Authentication failed" and exit
    code 1 without a single request. *)
Theorem cli_configured_never_activates
  (options : CLI.Options) (d : Disk) (w : World) :
  ConfigService.exists_ Disk fs CONFIG_FILE d = true ->
  let run := CLI.runCLI host toLowerCase Disk fs CONFIG_FILE postGetCode
               postCheckLinked getChannelList played options d w in
  forallb (fun a => negb (CLI.isRequest a)) (CLI.actions (fst run)) = true /\
  snd run = d /\
  (CLI.examples options = false ->
   CLI.given (ConfigService.loadToken Disk fs CONFIG_FILE d) = None ->
   fst run = {| CLI.console := [CLI.Err (js "Authentication failed")];
                CLI.actions := [];
                CLI.status := CLI.Exit 1 |}).
Proof.
  intros Hex. cbv zeta. unfold CLI.runCLI. rewrite Hex. cbn [negb].
  destruct (CLI.examples options); [repeat split; discriminate|].
  destruct (CLI.given _) as [token|]; cbn [fst snd].
  - split; [now apply play_no_request|]. split; [reflexivity|discriminate].
  - repeat split.
Qed.

(** X28.  [--time] has an effect only together with [--channel]: with
    [--examples] or [--list], or without a channel, the run is the same as
    without [--time]. *)
Theorem cli_time_needs_channel
  (options : CLI.Options) (d : Disk) (w : World) :
  CLI.examples options = true \/ CLI.list_ options = true \/
  CLI.given (CLI.channel options) = None ->
  CLI.runCLI host toLowerCase Disk fs CONFIG_FILE postGetCode postCheckLinked
    getChannelList played options d w
  = CLI.runCLI host toLowerCase Disk fs CONFIG_FILE postGetCode postCheckLinked
      getChannelList played
      {| CLI.channel := CLI.channel options; CLI.time := None;
         CLI.list_ := CLI.list_ options; CLI.examples := CLI.examples options |}
      d w.
Proof.
  intros Hno. unfold CLI.runCLI. cbn [CLI.examples].
  destruct (CLI.examples options); [reflexivity|].
  destruct Hno as [Hno|Hno]; [discriminate|].
  destruct (negb _).
  - destruct (AuthService.authenticate _ _ _ _ _ _) as [[[token|e] d'] requests];
      [|reflexivity].
    destruct (truthy token); [|reflexivity].
    now rewrite (play_without_time options _ _ _ _ false Hno).
  - destruct (CLI.given (ConfigService.loadToken Disk fs CONFIG_FILE d))
      as [token|]; [|reflexivity].
    now rewrite (play_without_time options _ _ _ _ false Hno).
Qed.

(** X29.  When [runCLI] starts playback at a time, the start time is the
    timestamp that [parseTimeExpression] resolves [--time] to, never a later
    second than the current one; the channel is the one found for
    [--channel], the token is not empty, and "Playing <name>:
    <description>" has been printed. *)
Theorem cli_plays_resolved_time
  (options : CLI.Options) (d : Disk) (w : World)
  (found : Types.Channel) (token : jsstring) (startTime : Z) :
  In (CLI.PlayChannelAtTime found token startTime)
     (CLI.actions (fst (CLI.runCLI host toLowerCase Disk fs CONFIG_FILE
                          postGetCode postCheckLinked getChannelList played
                          options d w))) ->
  truthy token = true /\
  startTime <= nowOfParse w / 1000 /\
  exists values query expression parsedTime,
    getChannelList token = Exceptions.Returned values /\
    CLI.given (CLI.channel options) = Some query /\
    ZappingUI.findChannel toLowerCase values query = Some found /\
    CLI.given (CLI.time options) = Some expression /\
    valueOf (parseTimeExpression host expression) w = Some parsedTime /\
    startTime = timestamp parsedTime /\
    In (CLI.Out (js "Playing " ++ Types.name found ++ js ": "
                   ++ description parsedTime))
       (CLI.console (fst (CLI.runCLI host toLowerCase Disk fs CONFIG_FILE
                            postGetCode postCheckLinked getChannelList played
                            options d w))).
Proof.
  assert (Hrequests : forall requests,
             ~ In (CLI.PlayChannelAtTime found token startTime)
                  (map CLI.Request requests)).
  { intros requests H. apply in_map_iff in H as (r & Hr & _). discriminate. }
  assert (Hplay : forall token0 console actions,
    truthy token0 = true ->
    ~ In (CLI.PlayChannelAtTime found token startTime) actions ->
    In (CLI.PlayChannelAtTime found token startTime)
       (CLI.actions (CLI.play host toLowerCase getChannelList played options w
                       token0 console actions)) ->
    truthy token = true /\
    startTime <= nowOfParse w / 1000 /\
    exists values query expression parsedTime,
      getChannelList token = Exceptions.Returned values /\
      CLI.given (CLI.channel options) = Some query /\
      ZappingUI.findChannel toLowerCase values query = Some found /\
      CLI.given (CLI.time options) = Some expression /\
      valueOf (parseTimeExpression host expression) w = Some parsedTime /\
      startTime = timestamp parsedTime /\
      In (CLI.Out (js "Playing " ++ Types.name found ++ js ": "
                     ++ description parsedTime))
         (CLI.console (CLI.play host toLowerCase getChannelList played options
                         w token0 console actions))).
  { intros token0 console actions Htruthy Hnot Hin.
    apply play_at_time in Hin as [Hin|(-> & values & q & ex & pt & H)];
      [contradiction|].
    split; [exact Htruthy|].
    destruct H as (Hv & Hq & Hf & Ht & Hp & -> & Hc).
    split.
    - pose proof (parseTimeExpression_some host ex w pt Hp)
        as (_ & _ & Hpast & -> & _).
      apply Z.div_le_mono; [reflexivity | exact Hpast].
    - exists values, q, ex, pt. repeat split; assumption. }
  unfold CLI.runCLI, CLI.fatal.
  destruct (CLI.examples options); [intros []|].
  destruct (negb _).
  - destruct (AuthService.authenticate _ _ _ _ _ _) as [[[token0|e] d'] requests];
      cbn [fst].
    + destruct (truthy token0) eqn:Ht; cbn [fst].
      * apply Hplay; [exact Ht | apply Hrequests].
      * cbn. intros H. now apply Hrequests in H.
    + cbn. intros H. now apply Hrequests in H.
  - destruct (CLI.given (ConfigService.loadToken Disk fs CONFIG_FILE d))
      as [token0|] eqn:Hgiven; cbn [fst].
    + apply Hplay; [|intros []].
      unfold CLI.given in Hgiven.
      destruct (ConfigService.loadToken _ _ _ _) as [t|]; [|discriminate].
      destruct (truthy t) eqn:Ht; [|discriminate]. now injection Hgiven as <-.
    + intros [].
Qed.

End CommandLine.

Lemma cli_failure_is_explained_witness :
  exists before text,
    CLI.console (fst (SampleCLI.run (SampleCLI.options (Some "arte"%string) None)
                        SampleCLI.configured))
    = before ++ [CLI.Err text] /\
    (text = js "Authentication failed" \/
     text = js "Use --list to see available channels" \/
     text = js "Use --examples to see supported formats" \/
     exists error, text = js "Error: " ++ Exceptions.message error).
Proof.
  refine (proj2 (cli_failure_is_explained _ _ _ _ _ _ _ _ _ _ _ _ 1 _)).
  reflexivity.
Defined.

Lemma cli_configured_never_activates_witness :
  snd (SampleCLI.run (SampleCLI.options (Some "mega"%string) None)
         SampleCLI.configured)
  = SampleCLI.configured.
Proof.
  refine (proj1 (proj2 (cli_configured_never_activates _ _ _ _ _ _ _ _ _ _ _ _ _))).
  reflexivity.
Defined.

Lemma cli_time_needs_channel_witness :
  SampleCLI.run (SampleCLI.options None (Some "2 hours ago"%string)) SampleCLI.configured
  = SampleCLI.run (SampleCLI.options None None) SampleCLI.configured.
Proof.
  apply (cli_time_needs_channel (Sample.host Sample.utc) SampleUI.toLowerCase
           SampleDisk.Disk SampleDisk.fs SampleDisk.CONFIG_FILE).
  right. right. reflexivity.
Defined.

Lemma cli_plays_resolved_time_witness :
  1718445600 <= nowOfParse (frozen Sample.noon) / 1000.
Proof.
  refine (proj1 (proj2 (cli_plays_resolved_time
            (Sample.host Sample.utc) SampleUI.toLowerCase
            SampleDisk.Disk SampleDisk.fs SampleDisk.CONFIG_FILE
            (ApiService.Response 200 (js "ABC123"))
            (fun _ => ApiService.Response 200
                        {| ApiService.status := ApiService.StatusBool true;
                           ApiService.data := Some (Some (js "tok-123")) |})
            (fun _ => Exceptions.Returned SampleUI.lineup)
            (fun _ => Exceptions.Returned tt)
            (SampleCLI.options (Some "mega"%string) (Some "2 hours ago"%string))
            SampleCLI.configured (frozen Sample.noon)
            (SampleUI.channel 13 "Mega") (js "tok-123") 1718445600 _))).
  vm_compute. auto.
Defined.


(* ================================================================= *)
(** * A new screen *)

(** X30.  When the channel list arrives on a screen whose search box is
    blank, as it is on a new screen, the browser is in step: the rows show
    the filtered channels and these are what the search text selects, all of
    them.  (With text in the box the list shows all channels all the same.) *)
Theorem loaded_browser_in_step
  (toLowerCase : jsstring -> jsstring) (ui : ZappingUI.UI)
  (values : list Types.Channel) (value : jsstring) :
  ZappingUI.searchBox ui = Some value ->
  trim (toLowerCase value) = [] ->
  ZappingUI.rowsShown (ZappingUI.loadChannels_loaded ui values) /\
  ZappingUI.searchApplied toLowerCase (ZappingUI.loadChannels_loaded ui values) /\
  ZappingUI.filteredChannels (ZappingUI.loadChannels_loaded ui values)
  = Builtins.sort Types.Channel ZappingUI.byNumber values /\
  ZappingUI.searchBox (ZappingUI.createMainUI ui) = Some [].
Proof.
  intros Hbox Hblank. split; [apply updateChannelList_rows|].
  unfold ZappingUI.loadChannels_loaded, ZappingUI.searchApplied,
    ZappingUI.searchResult. cbv zeta.
  match goal with |- context [ZappingUI.updateChannelList ?u] =>
    destruct (updateChannelList_keeps u) as (-> & _ & -> & ->) end.
  cbn [ZappingUI.searchBox ZappingUI.channels ZappingUI.filteredChannels].
  rewrite Hbox, Hblank. repeat split.
Qed.

Lemma loaded_browser_in_step_witness :
  ZappingUI.filteredChannels SampleUI.browser
  = Builtins.sort Types.Channel ZappingUI.byNumber SampleUI.lineup.
Proof.
  refine (proj1 (proj2 (proj2 (loaded_browser_in_step SampleUI.toLowerCase
            (ZappingUI.createMainUI
               {| ZappingUI.searchBox := None; ZappingUI.channelList := None;
                  ZappingUI.token := Some (js "token");
                  ZappingUI.channels := []; ZappingUI.filteredChannels := [] |})
            SampleUI.lineup [] _ _)))); reflexivity.
Defined.
